(** * CodeBattle: room and battle orchestration

    A shallow embedding of the backend's room model (models/Room.js), match
    model (models/Match.js) and user model (models/User.js), of the socket
    handlers that drive them (battleHandlers and roomHandlers) and of the
    rooms router, followed by the properties of the specification that were
    checked against them.

    Conventions.
    - Mongo ObjectIds are natural numbers; on a room loaded plainly,
      [toString] comparison of ids is equality.  On a room loaded with
      [populate('participants.user')] a participant's user is a document,
      whose [toString()] is not its id, and a user that is gone is [null],
      on which [toString()] and [_id] throw.
    - Dates are integers, in milliseconds ([Date.now()]).  A handler reads
      the clock once; [battle:submit], which waits for the scoring oracle,
      reads it again when the oracle has answered.
    - The document store is a finite map; a handler is a function from the
      store before the event to the store after it, together with the events
      it emits (to whom is not recorded).  A handler that throws, or whose
      [save()] rejects, leaves the store as it was at its last successful
      [save()].
    - Handlers are run one at a time.
    - Numbers a client sends are integers, and a difficulty it sends is one
      of the three of the schema.
    - A string is a sequence of code units below 256. *)

From stdpp Require Import gmap strings list fin_maps.
From Stdlib Require Import ZArith Lia Sorted.

Local Open Scope Z_scope.

(** ** Data model *)

Abbreviation ObjectId := nat.

Inductive Status := waiting | ready | in_progress | completed | cancelled.

Inductive Difficulty := easy | medium | hard.

Inductive ChatType := message_t | system_t | announcement_t.

Inductive SubmissionStatus := sub_pending | sub_running | sub_completed | sub_error.

Inductive Rank := Bronze | Silver | Gold | Platinum | Diamond | Master.

#[global] Instance Status_eq_dec : EqDecision Status.
Proof. solve_decision. Defined.

#[global] Instance Difficulty_eq_dec : EqDecision Difficulty.
Proof. solve_decision. Defined.

#[global] Instance Rank_eq_dec : EqDecision Rank.
Proof. solve_decision. Defined.

Record TestResult := {
  input : string;
  expectedOutput : string;
  actualOutput : string;
  passed : bool;
  executionTime : Z
}.

Record Submission := {
  code : string;
  sub_language : string;
  submittedAt : Z;
  testResults : list TestResult;
  score : Z;
  sub_status : SubmissionStatus
}.

Record Participant := {
  p_user : ObjectId;
  joinedAt : Z;
  isReady : bool;
  currentCode : string;
  lastSubmission : option Submission
}.

Record Settings := {
  maxParticipants : Z;
  difficulty : Difficulty;
  language : string;
  timeLimit : Z;          (* minutes *)
  isRanked : bool;
  allowSpectators : bool
}.

(** One entry of [battle.results], as built by the ending path. *)
Record Result := {
  r_user : ObjectId;
  finalScore : Z;
  timeSpent : Z;          (* seconds *)
  submissionCount : Z;
  correctTests : Z;
  totalTests : Z
}.

(** The battle timing block.  [None] stands for a field that is not set. *)
Record Battle := {
  startedAt : option Z;
  endedAt : option Z;
  duration : option Z;    (* seconds *)
  winner : option ObjectId;
  results : list Result
}.

Record ChatMessage := {
  c_user : option ObjectId;
  message : string;
  c_type : ChatType;
  timestamp : Z
}.

Record Room := {
  roomId : string;
  name : string;
  host : ObjectId;
  participants : list Participant;
  settings : Settings;
  problem : option ObjectId;
  status : Status;
  battle : Battle;
  spectators : list ObjectId;
  chat : list ChatMessage;
  isPrivate : bool;
  password : option string
}.

(** [Math.round (a / b)] on integers: JavaScript rounds halves up, so the
    result is [floor (a/b + 1/2)].  [b] is not zero at any use below.  The
    quotient is a double; for numerators below 2^52, as all times in
    milliseconds are, rounding it to the nearest double does not move it
    across a half. *)
Definition round_div (a b : Z) : Z := (2 * a + b) / (2 * b).

(** [arr.slice(-n)]: the last [n] elements, the whole array when it is
    shorter. *)
Definition slice_last {A} (n : nat) (l : list A) : list A :=
  drop (length l - n)%nat l.

(** [WhiteSpace] and [LineTerminator] code units below 256: what [trim]
    strips. *)
Definition is_space (c : Ascii.ascii) : bool :=
  match Ascii.nat_of_ascii c with
  | 9%nat | 10%nat | 11%nat | 12%nat | 13%nat | 32%nat | 160%nat => true
  | _ => false
  end.

Fixpoint trim_start (s : string) : string :=
  match s with
  | EmptyString => EmptyString
  | String c s' => if is_space c then trim_start s' else s
  end.

Fixpoint trim_end (s : string) : string :=
  match s with
  | EmptyString => EmptyString
  | String c s' =>
      match trim_end s' with
      | EmptyString => if is_space c then EmptyString else String c EmptyString
      | t => String c t
      end
  end.

(** [s.trim()]. *)
Definition trim (s : string) : string := trim_end (trim_start s).

(** ** JavaScript numbers

    A product or quotient of two numbers is the double nearest to the exact
    result.  A positive double is written [m * 2^e] with
    [2^52 <= m < 2^53]; the numbers computed below are far from the
    subnormal range and from overflow. *)

(** The fraction [num / den] times [2^-e]. *)
Definition scaled (num den e : Z) : Z * Z :=
  if 0 <=? e then (num, den * 2 ^ e) else (num * 2 ^ (- e), den).

(** The double nearest to the positive fraction [num / den], a tie going to
    the even mantissa: [E] is the exponent of the fraction, that is
    [2^E <= num / den < 2^(E+1)]. *)
Definition nearest_double (num den : Z) : Z * Z :=
  let k := Z.log2 num - Z.log2 den in
  let '(n0, d0) := scaled num den k in
  let E := if d0 <=? n0 then k else k - 1 in
  let '(n, d) := scaled num den (E - 52) in
  let q := n / d in
  let r := n mod d in
  let m := if 2 * r <? d then q
           else if d <? 2 * r then q + 1
           else if Z.even q then q else q + 1 in
  if m =? 2 ^ 53 then (2 ^ 52, E - 51) else (m, E - 52).

(** [x * 100] on a positive double. *)
Definition times_100 (x : Z * Z) : Z * Z :=
  let '(m, e) := x in
  let '(n, d) := scaled (100 * m) 1 (- e) in
  nearest_double n d.

(** [Math.round(x)] on a positive double: the integer nearest to it, a half
    going up. *)
Definition js_round (x : Z * Z) : Z :=
  let '(m, e) := x in
  if 0 <=? e then m * 2 ^ e else (2 * m + 2 ^ (- e)) / 2 ^ (- e + 1).

(** ** models/Room.js *)

Module RoomModel.

Definition set_participants (r : Room) (ps : list Participant) : Room :=
  {| roomId := roomId r; name := name r; host := host r;
     participants := ps; settings := settings r; problem := problem r;
     status := status r; battle := battle r; spectators := spectators r;
     chat := chat r; isPrivate := isPrivate r; password := password r |}.

Definition set_chat (r : Room) (c : list ChatMessage) : Room :=
  {| roomId := roomId r; name := name r; host := host r;
     participants := participants r; settings := settings r;
     problem := problem r; status := status r; battle := battle r;
     spectators := spectators r; chat := c; isPrivate := isPrivate r;
     password := password r |}.

Definition set_host (r : Room) (h : ObjectId) : Room :=
  {| roomId := roomId r; name := name r; host := h;
     participants := participants r; settings := settings r;
     problem := problem r; status := status r; battle := battle r;
     spectators := spectators r; chat := chat r; isPrivate := isPrivate r;
     password := password r |}.

Definition set_status (r : Room) (s : Status) : Room :=
  {| roomId := roomId r; name := name r; host := host r;
     participants := participants r; settings := settings r;
     problem := problem r; status := s; battle := battle r;
     spectators := spectators r; chat := chat r; isPrivate := isPrivate r;
     password := password r |}.

Definition set_settings (r : Room) (s : Settings) : Room :=
  {| roomId := roomId r; name := name r; host := host r;
     participants := participants r; settings := s;
     problem := problem r; status := status r; battle := battle r;
     spectators := spectators r; chat := chat r; isPrivate := isPrivate r;
     password := password r |}.

Definition set_problem (r : Room) (p : option ObjectId) : Room :=
  {| roomId := roomId r; name := name r; host := host r;
     participants := participants r; settings := settings r;
     problem := p; status := status r; battle := battle r;
     spectators := spectators r; chat := chat r; isPrivate := isPrivate r;
     password := password r |}.

Definition set_battle (r : Room) (b : Battle) : Room :=
  {| roomId := roomId r; name := name r; host := host r;
     participants := participants r; settings := settings r;
     problem := problem r; status := status r; battle := b;
     spectators := spectators r; chat := chat r; isPrivate := isPrivate r;
     password := password r |}.

(** [participantCount], [availableSlots] and [isFull] virtuals. *)
Definition participantCount (r : Room) : Z := Z.of_nat (length (participants r)).

Definition availableSlots (r : Room) : Z :=
  maxParticipants (settings r) - participantCount r.

Definition isFull (r : Room) : bool :=
  maxParticipants (settings r) <=? participantCount r.

Definition isParticipant (r : Room) (userId : ObjectId) : bool :=
  existsb (fun p => Nat.eqb (p_user p) userId) (participants r).

Definition isHost (r : Room) (userId : ObjectId) : bool :=
  Nat.eqb (host r) userId.

Definition allParticipantsReady (r : Room) : bool :=
  (2 <=? participantCount r) && forallb isReady (participants r).

(** [addParticipant] returns the success flag and the room after the call. *)
Definition addParticipant (r : Room) (userId : ObjectId) (now : Z) : bool * Room :=
  if isFull r || isParticipant r userId then (false, r)
  else (true,
        set_participants r
          (participants r ++
           [{| p_user := userId; joinedAt := now; isReady := false;
               currentCode := ""; lastSubmission := None |}])).

(** [isParticipant] and [addParticipant] on a room that was loaded with
    [populate('participants.user')]; [present] tells whether a user's
    document exists.  Every listed user is then a document, whose
    [toString()] is never the id that is looked for, or [null] when the
    document is gone, on which [toString()] throws ([None]).  The entry
    that [addParticipant] pushes holds the plain id. *)
Definition isParticipant_populated (present : ObjectId -> bool) (r : Room)
    (userId : ObjectId) : option bool :=
  if forallb (fun p => present (p_user p)) (participants r) then Some false
  else None.

Definition addParticipant_populated (present : ObjectId -> bool) (r : Room)
    (userId : ObjectId) (now : Z) : option (bool * Room) :=
  if isFull r then Some (false, r)
  else
    match isParticipant_populated present r userId with
    | None => None
    | Some true => Some (false, r)
    | Some false =>
        Some (true,
              set_participants r
                (participants r ++
                 [{| p_user := userId; joinedAt := now; isReady := false;
                     currentCode := ""; lastSubmission := None |}]))
    end.

Definition removeParticipant (r : Room) (userId : ObjectId) : Room :=
  set_participants r
    (List.filter (fun p => negb (Nat.eqb (p_user p) userId)) (participants r)).

Definition set_ready (v : bool) (p : Participant) : Participant :=
  {| p_user := p_user p; joinedAt := joinedAt p; isReady := v;
     currentCode := currentCode p; lastSubmission := lastSubmission p |}.

(** [find] then mutate: the first participant with the id is updated. *)
Fixpoint update_first (userId : ObjectId) (f : Participant -> Participant)
    (ps : list Participant) : list Participant :=
  match ps with
  | [] => []
  | p :: ps' =>
      if Nat.eqb (p_user p) userId then f p :: ps'
      else p :: update_first userId f ps'
  end.

Definition setParticipantReady (r : Room) (userId : ObjectId) (v : bool)
    : bool * Room :=
  if isParticipant r userId
  then (true, set_participants r (update_first userId (set_ready v) (participants r)))
  else (false, r).

Definition startBattle (r : Room) (now : Z) : bool * Room :=
  if negb (allParticipantsReady r) || negb (bool_decide (status r = ready))
  then (false, r)
  else (true,
        set_battle (set_status r in_progress)
          {| startedAt := Some now; endedAt := endedAt (battle r);
             duration := duration (battle r); winner := winner (battle r);
             results := results (battle r) |}).

(** [results.reduce((prev, current) =>
       prev.finalScore > current.finalScore ? prev : current)]
    on a non-empty array, the first element being the initial
    accumulator. *)
Definition pick_winner (first : Result) (rest : list Result) : Result :=
  fold_left (fun prev current =>
               if finalScore prev >? finalScore current then prev else current)
            rest first.

(** [endBattle(results)].  The duration is [NaN] (here [None]) when the
    battle was never started. *)
Definition endBattle (r : Room) (res : list Result) (now : Z) : Room :=
  set_battle (set_status r completed)
    {| startedAt := startedAt (battle r);
       endedAt := Some now;
       duration := (fun t0 => round_div (now - t0) 1000) <$> startedAt (battle r);
       winner := match res with
                 | [] => winner (battle r)
                 | r0 :: rest => Some (r_user (pick_winner r0 rest))
                 end;
       results := res |}.

Definition addChatMessage (r : Room) (userId : option ObjectId)
    (msg : string) (ty : ChatType) (now : Z) : Room :=
  let pushed := chat r ++ [{| c_user := userId; message := msg;
                              c_type := ty; timestamp := now |}] in
  set_chat r (if (100 <? length pushed)%nat then slice_last 100 pushed else pushed).

End RoomModel.

(** ** models/Match.js *)

Record MatchParticipant := {
  m_user : ObjectId;
  m_finalScore : Z;
  m_rank : Z;
  m_timeSpent : Z;
  m_submissionCount : Z;
  correctTestCases : Z;
  totalTestCases : Z
}.

Record MatchBattle := {
  mb_startedAt : Z;
  mb_endedAt : Z;
  mb_duration : Z;
  mb_winner : option ObjectId
}.

Record Match := {
  matchId : string * Z;        (* `match_${roomId}_${Date.now()}` *)
  m_room : string;
  m_problem : ObjectId;
  m_participants : list MatchParticipant;
  m_settings : Settings;
  m_battle : MatchBattle
}.

Module MatchModel.

(** The comparator handed to [sort]: a negative result puts [a] first. *)
Definition compare_participants (a b : MatchParticipant) : Z :=
  if negb (m_finalScore b =? m_finalScore a) then m_finalScore b - m_finalScore a
  else if negb (m_timeSpent a =? m_timeSpent b) then m_timeSpent a - m_timeSpent b
  else m_submissionCount a - m_submissionCount b.

(** [Array.prototype.sort] is stable; the array is sorted here by stable
    insertion, each element tagged with its index in [this.participants]
    so that the rank can be written back to the very same subdocument. *)
Fixpoint insert_sorted (x : nat * MatchParticipant)
    (l : list (nat * MatchParticipant)) : list (nat * MatchParticipant) :=
  match l with
  | [] => [x]
  | y :: l' =>
      if compare_participants x.2 y.2 <=? 0 then x :: y :: l'
      else y :: insert_sorted x l'
  end.

Definition sort_participants (l : list (nat * MatchParticipant))
    : list (nat * MatchParticipant) :=
  foldr insert_sorted [] l.

Definition sortedParticipants (m : Match) : list (nat * MatchParticipant) :=
  sort_participants (imap (fun i p => (i, p)) (m_participants m)).

(** Position of the subdocument with index [i] in the sorted copy. *)
Fixpoint position (i : nat) (l : list (nat * MatchParticipant)) : nat :=
  match l with
  | [] => 0%nat
  | y :: l' => if Nat.eqb y.1 i then 0%nat else S (position i l')
  end.

Definition set_rank (p : MatchParticipant) (k : Z) : MatchParticipant :=
  {| m_user := m_user p; m_finalScore := m_finalScore p; m_rank := k;
     m_timeSpent := m_timeSpent p; m_submissionCount := m_submissionCount p;
     correctTestCases := correctTestCases p; totalTestCases := totalTestCases p |}.

Definition calculateRankings (m : Match) : Match :=
  let sorted := sortedParticipants m in
  {| matchId := matchId m; m_room := m_room m; m_problem := m_problem m;
     m_participants :=
       imap (fun i p => set_rank p (Z.of_nat (position i sorted) + 1))
            (m_participants m);
     m_settings := m_settings m;
     m_battle :=
       {| mb_startedAt := mb_startedAt (m_battle m);
          mb_endedAt := mb_endedAt (m_battle m);
          mb_duration := mb_duration (m_battle m);
          mb_winner := match sorted with
                       | [] => mb_winner (m_battle m)
                       | first :: _ => Some (m_user first.2)
                       end |} |}.

End MatchModel.

(** ** models/User.js *)

Record ProblemsSolved := {
  solved_easy : Z;
  solved_medium : Z;
  solved_hard : Z
}.

Record Statistics := {
  totalBattles : Z;
  wins : Z;
  losses : Z;
  draws : Z;
  rating : Z;
  rank : Rank;
  averageTime : Z;
  problemsSolved : ProblemsSolved
}.

Record User := {
  username : string;
  statistics : Statistics
}.

Module UserModel.

(** The [pre('save')] hook that recomputes the rank tier from the rating. *)
Definition rank_of_rating (r : Z) : Rank :=
  if r <? 1300 then Bronze
  else if r <? 1500 then Silver
  else if r <? 1700 then Gold
  else if r <? 1900 then Platinum
  else if r <? 2100 then Diamond
  else Master.

Definition pre_save (u : User) : User :=
  {| username := username u;
     statistics :=
       {| totalBattles := totalBattles (statistics u);
          wins := wins (statistics u); losses := losses (statistics u);
          draws := draws (statistics u); rating := rating (statistics u);
          rank := rank_of_rating (rating (statistics u));
          averageTime := averageTime (statistics u);
          problemsSolved := problemsSolved (statistics u) |} |}.

Definition bump_solved (d : Difficulty) (s : ProblemsSolved) : ProblemsSolved :=
  match d with
  | easy => {| solved_easy := solved_easy s + 1; solved_medium := solved_medium s;
               solved_hard := solved_hard s |}
  | medium => {| solved_easy := solved_easy s; solved_medium := solved_medium s + 1;
                 solved_hard := solved_hard s |}
  | hard => {| solved_easy := solved_easy s; solved_medium := solved_medium s;
               solved_hard := solved_hard s + 1 |}
  end.

(** [updateStats(result, timeSpent, difficulty)]; [result] is the string the
    caller passes. *)
Definition updateStats (u : User) (result : string) (spent : Z)
    (d : Difficulty) : User :=
  let s := statistics u in
  let total := totalBattles s + 1 in
  let s1 :=
    if String.eqb result "win" then
      {| totalBattles := total; wins := wins s + 1; losses := losses s;
         draws := draws s; rating := rating s + 25; rank := rank s;
         averageTime := averageTime s;
         problemsSolved := bump_solved d (problemsSolved s) |}
    else if String.eqb result "loss" then
      {| totalBattles := total; wins := wins s; losses := losses s + 1;
         draws := draws s; rating := Z.max 800 (rating s - 20); rank := rank s;
         averageTime := averageTime s; problemsSolved := problemsSolved s |}
    else if String.eqb result "draw" then
      {| totalBattles := total; wins := wins s; losses := losses s;
         draws := draws s + 1; rating := rating s + 5; rank := rank s;
         averageTime := averageTime s; problemsSolved := problemsSolved s |}
    else
      {| totalBattles := total; wins := wins s; losses := losses s;
         draws := draws s; rating := rating s; rank := rank s;
         averageTime := averageTime s; problemsSolved := problemsSolved s |} in
  let totalTime := averageTime s1 * (totalBattles s1 - 1) + spent in
  {| username := username u;
     statistics :=
       {| totalBattles := totalBattles s1; wins := wins s1; losses := losses s1;
          draws := draws s1; rating := rating s1; rank := rank s1;
          averageTime := round_div totalTime (totalBattles s1);
          problemsSolved := problemsSolved s1 |} |}.

End UserModel.

(** ** The server state and the events it emits *)

(** What a pending [setTimeout] will run: the ending path (the grace period
    after a perfect score) or the automatic start (the countdown after all
    participants are ready). *)
Inductive TimerAction :=
  | end_battle_timer (rid : string)
  | auto_start_timer (rid : string).

Record Timer := {
  fireAt : Z;
  action : TimerAction
}.

Inductive Event :=
  | ev_error (msg : string)
  | ev_submission_processing
  | ev_submission_result (sc passedTests total : Z)
  | ev_battle_submission (userId : ObjectId) (sc : Z)
  | ev_battle_ended (ranked : list (Result * Z)) (win : option ObjectId)
                    (dur : option Z) (mid : string * Z)
  | ev_battle_start (pid : ObjectId) (started : option Z)
  | ev_room_created (rid : string)
  | ev_room_new (rid : string)
  | ev_room_joined (rid : string)
  | ev_room_user_joined (userId : ObjectId)
  | ev_room_left (rid : string)
  | ev_room_user_left (userId : ObjectId)
  | ev_room_host_changed (newHost : ObjectId)
  | ev_room_deleted (rid : string)
  | ev_room_updated (rid : string)
  | ev_room_ready_changed (userId : ObjectId) (isReady : bool)
  | ev_room_all_ready (countdown : Z)
  | ev_room_settings_updated (s : Settings).

(** The authenticated connection a handler runs for. *)
Record Socket := {
  userId : ObjectId;
  s_username : string
}.

Record World := {
  rooms : gmap string Room;
  matches : list Match;
  users : gmap ObjectId User;
  timers : list Timer;
  (** [Problem.getRandomByDifficulty]: the catalog's choice. *)
  getRandomByDifficulty : Difficulty -> option ObjectId
}.

Definition with_rooms (w : World) (rs : gmap string Room) : World :=
  {| rooms := rs; matches := matches w; users := users w; timers := timers w;
     getRandomByDifficulty := getRandomByDifficulty w |}.

Definition with_matches (w : World) (ms : list Match) : World :=
  {| rooms := rooms w; matches := ms; users := users w; timers := timers w;
     getRandomByDifficulty := getRandomByDifficulty w |}.

Definition with_users (w : World) (us : gmap ObjectId User) : World :=
  {| rooms := rooms w; matches := matches w; users := us; timers := timers w;
     getRandomByDifficulty := getRandomByDifficulty w |}.

Definition with_timers (w : World) (ts : list Timer) : World :=
  {| rooms := rooms w; matches := matches w; users := users w; timers := ts;
     getRandomByDifficulty := getRandomByDifficulty w |}.

(** Whether a user's document exists: what [populate] finds. *)
Definition user_exists (w : World) (id : ObjectId) : bool :=
  bool_decide (is_Some (users w !! id)).

(** [room.save()] of the room that was loaded by [Room.findOne({ roomId })]. *)
Definition save_room (w : World) (rid : string) (r : Room) : World :=
  with_rooms w (<[rid := r]> (rooms w)).

(** [setTimeout(f, delay)] called at [now]. *)
Definition setTimeout (w : World) (now delay : Z) (a : TimerAction) : World :=
  with_timers w (timers w ++ [{| fireAt := now + delay; action := a |}]).

(** ** socket/battleHandlers.js *)

Module BattleHandlers.
Import RoomModel.

(** [timeElapsed > room.settings.timeLimit], with [timeElapsed] in minutes;
    stated on milliseconds.  An unset [startedAt] makes the elapsed time
    [NaN], and the comparison false. *)
Definition time_is_up (room : Room) (now : Z) : bool :=
  match startedAt (battle room) with
  | Some t0 => now - t0 >? timeLimit (settings room) * 60 * 1000
  | None => false
  end.

(** [Math.round((passedTests / totalTests) * 100)] on doubles: the quotient
    is rounded, then the product, so that 23 tests of 40 give 57 and not
    58.  Both counts are lengths of arrays, which doubles hold exactly. *)
Definition score_of (passedTests total : Z) : Z :=
  if passedTests <=? 0 then 0
  else js_round (times_100 (nearest_double passedTests total)).

Definition count_passed (tr : list TestResult) : Z :=
  Z.of_nat (length (List.filter passed tr)).

Definition record_submission (c lang : string) (at_ : Z)
    (tr : list TestResult) (sc : Z) (p : Participant) : Participant :=
  {| p_user := p_user p; joinedAt := joinedAt p; isReady := isReady p;
     currentCode := c;
     lastSubmission :=
       Some {| code := c; sub_language := lang; submittedAt := at_;
               testResults := tr; score := sc; sub_status := sub_completed |} |}.

(** The perfect-score check made after the result was sent:
    [battleTimeMinutes >= 1]. *)
Definition grace_due (room : Room) (sc later : Z) : bool :=
  (sc =? 100) &&
  match startedAt (battle room) with
  | Some t0 => later - t0 >=? 1 * 60 * 1000
  | None => false
  end.

(** [battle:submit].  [now] is the clock when the handler checks the time,
    [oracle] what [executeCode] returns ([None] when it throws), [later]
    the clock once it has returned.  An empty list of test results makes
    the score [NaN], which the room's [save()] refuses. *)
Definition battle_submit (sock : Socket) (rid c lang : string) (now : Z)
    (oracle : option (list TestResult)) (later : Z) (w : World)
    : World * list Event :=
  match rooms w !! rid with
  | None => (w, [ev_error "Room not found"])
  | Some room =>
      if negb (isParticipant room (userId sock))
      then (w, [ev_error "Not authorized for this room"])
      else if negb (bool_decide (status room = in_progress))
      then (w, [ev_error "Battle is not in progress"])
      else if time_is_up room now
      then (w, [ev_error "Battle time is up"])
      else
        match oracle with
        | None | Some [] =>
            (w, [ev_submission_processing; ev_error "Code submission failed"])
        | Some tr =>
            let passedTests := count_passed tr in
            let total := Z.of_nat (length tr) in
            let sc := score_of passedTests total in
            let room' :=
              set_participants room
                (update_first (userId sock)
                   (record_submission c lang later tr sc) (participants room)) in
            let w1 := save_room w rid room' in
            let w2 := if grace_due room' sc later
                      then setTimeout w1 later 10000 (end_battle_timer rid)
                      else w1 in
            (w2, [ev_submission_processing;
                  ev_submission_result sc passedTests total;
                  ev_battle_submission (userId sock) sc])
        end
  end.

(** One entry of [results], computed from a participant at the end.
    [lastSubmission] is a nested path of the schema and is always truthy:
    the submission count is 1 also for a participant who never submitted,
    whose score is the default 0 and whose test results are empty. *)
Definition result_of (room : Room) (now : Z) (p : Participant) : Result :=
  let submission := lastSubmission p in
  {| r_user := p_user p;
     finalScore := match submission with Some s => score s | None => 0 end;
     timeSpent := match startedAt (battle room) with
                  | Some t0 => round_div (now - t0) 1000
                  | None => 0
                  end;
     submissionCount := 1;
     correctTests := match submission with
                     | Some s => count_passed (testResults s)
                     | None => 0
                     end;
     totalTests := match submission with
                   | Some s => Z.of_nat (length (testResults s))
                   | None => 0
                   end |}.

(** [results.findIndex(res => res.user.toString() === id)]; [-1] when the
    id is absent. *)
Fixpoint findIndex (id : ObjectId) (res : list Result) : Z :=
  match res with
  | [] => -1
  | r :: res' =>
      if Nat.eqb (r_user r) id then 0
      else let k := findIndex id res' in if k <? 0 then -1 else k + 1
  end.

Definition match_participant (res : list Result) (r : Result) : MatchParticipant :=
  {| m_user := r_user r; m_finalScore := finalScore r;
     m_rank := findIndex (r_user r) res + 1;
     m_timeSpent := timeSpent r; m_submissionCount := submissionCount r;
     correctTestCases := correctTests r; totalTestCases := totalTests r |}.

(** The loop over [room.participants] that updates the users' statistics.
    The flag is false when the loop was left by an exception (a user that
    [findById] does not find); what was saved before stays saved. *)
Fixpoint update_statistics (room : Room) (res : list Result)
    (ps : list Participant) (us : gmap ObjectId User)
    : gmap ObjectId User * bool :=
  match ps with
  | [] => (us, true)
  | p :: ps' =>
      match us !! p_user p with
      | None => (us, false)
      | Some user =>
          match List.find (fun r => Nat.eqb (r_user r) (p_user p)) res with
          | Some result =>
              let isWinner :=
                match winner (battle room) with
                | Some wid => Nat.eqb wid (p_user p)
                | None => false
                end in
              let user' :=
                UserModel.updateStats user
                  (if isWinner then "win" else "loss")
                  (timeSpent result) (difficulty (settings room)) in
              update_statistics room res ps'
                (<[p_user p := UserModel.pre_save user']> us)
          | None => update_statistics room res ps' us
          end
      end
  end.

(** The ranks sent in [battle:ended]: [rank: index + 1]. *)
Definition ranked (res : list Result) : list (Result * Z) :=
  imap (fun i r => (r, Z.of_nat i + 1)) res.

(** The helper [endBattle(roomId, io)], run at clock [now].
    - A participant whose user document is gone is populated as [null], and
      reading its [_id] throws before anything is saved.
    - [room.calculateRankings] is not a method of the room model, so the
      guarded call does nothing.
    - A room that was never started gets the duration [NaN], which
      [room.save()] refuses.
    - A room without problem makes [room.problem._id] throw after the room
      was saved. *)
Definition endBattle (rid : string) (now : Z) (w : World) : World * list Event :=
  match rooms w !! rid with
  | None => (w, [])
  | Some room =>
      if negb (bool_decide (status room = in_progress)) then (w, [])
      else if negb (forallb (fun p => bool_decide (is_Some (users w !! p_user p)))
                            (participants room))
      then (w, [])
      else
        let res := map (result_of room now) (participants room) in
        let room1 := RoomModel.endBattle room res now in
        match startedAt (battle room1), duration (battle room1) with
        | Some t0, Some d =>
            let w1 := save_room w rid room1 in
            match problem room1 with
            | None => (w1, [])
            | Some pid =>
                let mid := (rid, now) in
                let m :=
                  {| matchId := mid; m_room := rid; m_problem := pid;
                     m_participants := map (match_participant res) res;
                     m_settings := settings room1;
                     m_battle :=
                       {| mb_startedAt := t0; mb_endedAt := now;
                          mb_duration := d;
                          mb_winner := winner (battle room1) |} |} in
                let w2 := with_matches w1 (matches w1 ++ [m]) in
                let '(us, finished) :=
                  update_statistics room1 res (participants room1) (users w2) in
                (with_users w2 us,
                 if finished
                 then [ev_battle_ended (ranked res) (winner (battle room1))
                                       (duration (battle room1)) mid]
                 else [])
            end
        | _, _ => (w, [])
        end
  end.

(** [battle:force-end]. *)
Definition battle_force_end (sock : Socket) (rid : string) (now : Z) (w : World)
    : World * list Event :=
  match rooms w !! rid with
  | None => (w, [ev_error "Room not found"])
  | Some room =>
      if negb (isHost room (userId sock))
      then (w, [ev_error "Only host can force end battle"])
      else endBattle rid now w
  end.

End BattleHandlers.

(** ** socket/roomHandlers.js and routes/rooms.js *)

(** The settings a client sends; [None] is a key that is absent. *)
Record SettingsInput := {
  in_maxParticipants : option Z;
  in_difficulty : option Difficulty;
  in_language : option string;
  in_timeLimit : option Z;
  in_isRanked : option bool;
  in_allowSpectators : option bool
}.

Module RoomHandlers.
Import RoomModel.

Definition languages : list string :=
  ["javascript"; "python"; "cpp"; "java"; "go"; "rust"; "any"]%string.

(** The schema's validators on [settings], run by [save()]. *)
Definition valid_settings (s : Settings) : bool :=
  (2 <=? maxParticipants s) && (maxParticipants s <=? 10) &&
  (5 <=? timeLimit s) && (timeLimit s <=? 60) &&
  existsb (String.eqb (language s)) languages.

(** The schema's validators on [name]: the name is trimmed when it is set,
    and what is left must not be empty nor longer than 100. *)
Definition valid_name (n : string) : bool :=
  negb (String.eqb (trim n) "") && (String.length (trim n) <=? 100)%nat.

(** [v || d] on a number: zero and an absent key are falsy. *)
Definition number_or (v : option Z) (d : Z) : Z :=
  match v with
  | Some 0 | None => d
  | Some x => x
  end.

(** [v || d] on a string: the empty string and an absent key are falsy. *)
Definition string_or (v : option string) (d : string) : string :=
  match v with
  | Some EmptyString | None => d
  | Some x => x
  end.

(** [v !== false]. *)
Definition not_false (v : option bool) : bool :=
  match v with
  | Some false => false
  | _ => true
  end.

Definition new_room (rid nm : string) (hostId : ObjectId) (si : SettingsInput)
    (priv : bool) (pw : option string) : Room :=
  {| roomId := rid; name := trim nm; host := hostId; participants := [];
     settings :=
       {| maxParticipants := number_or (in_maxParticipants si) 2;
          difficulty := default medium (in_difficulty si);
          language := string_or (in_language si) "any";
          timeLimit := number_or (in_timeLimit si) 15;
          isRanked := not_false (in_isRanked si);
          allowSpectators := not_false (in_allowSpectators si) |};
     problem := None; status := waiting;
     battle := {| startedAt := None; endedAt := None; duration := None;
                  winner := None; results := [] |};
     spectators := []; chat := []; isPrivate := priv; password := pw |}.

(** [room:create]; [rid] is the identifier drawn for the room.  The first
    [save()] validates the whole document and the unique index on
    [roomId]. *)
Definition room_create (sock : Socket) (rid nm : string) (si : SettingsInput)
    (priv : bool) (pw : option string) (now : Z) (w : World)
    : World * list Event :=
  let room := (addParticipant (new_room rid nm (userId sock) si priv pw)
                              (userId sock) now).2 in
  if valid_name nm && valid_settings (settings room) &&
     bool_decide (rooms w !! rid = None)
  then (save_room w rid room,
        ev_room_created rid :: (if priv then [] else [ev_room_new rid]))
  else (w, [ev_error "Failed to create room"]).

(** [room.isPrivate && room.password && room.password !== password]. *)
Definition wrong_password (room : Room) (pw : option string) : bool :=
  isPrivate room &&
  match password room with
  | None | Some EmptyString => false
  | Some secret =>
      match pw with
      | Some given => negb (String.eqb secret given)
      | None => true
      end
  end.

(** [room:join].  The room is loaded with its participants populated, so
    the test for a user who is already listed never succeeds. *)
Definition room_join (sock : Socket) (rid : string) (pw : option string)
    (now : Z) (w : World) : World * list Event :=
  match rooms w !! rid with
  | None => (w, [ev_error "Room not found"])
  | Some room =>
      if isFull room then (w, [ev_error "Room is full"])
      else
        match isParticipant_populated (user_exists w) room (userId sock) with
        | None => (w, [ev_error "Failed to join room"])
        | Some true => (w, [ev_error "Already in this room"])
        | Some false =>
            if wrong_password room pw then (w, [ev_error "Incorrect password"])
            else if bool_decide (status room = in_progress)
            then (w, [ev_error "Battle is already in progress"])
            else
              match addParticipant_populated (user_exists w) room
                      (userId sock) now with
              | None => (w, [ev_error "Failed to join room"])
              | Some (_, room1) =>
                  let room2 :=
                    addChatMessage room1 None
                      (s_username sock ++ " joined the room") system_t now in
                  (save_room w rid room2,
                   ev_room_joined rid :: ev_room_user_joined (userId sock) ::
                   (if isPrivate room then [] else [ev_room_updated rid]))
              end
        end
  end.

(** [POST /:roomId/join]: as [room:join], without the chat line. *)
Definition rest_join (uid : ObjectId) (rid : string) (pw : option string)
    (now : Z) (w : World) : World * list Event :=
  match rooms w !! rid with
  | None => (w, [ev_error "Room not found"])
  | Some room =>
      if isFull room then (w, [ev_error "Room is full"])
      else
        match isParticipant_populated (user_exists w) room uid with
        | None => (w, [ev_error "Failed to join room"])
        | Some true => (w, [ev_error "Already in this room"])
        | Some false =>
            if wrong_password room pw then (w, [ev_error "Incorrect password"])
            else if bool_decide (status room = in_progress)
            then (w, [ev_error "Battle is already in progress"])
            else
              match addParticipant_populated (user_exists w) room uid now with
              | None => (w, [ev_error "Failed to join room"])
              | Some (_, room1) => (save_room w rid room1, [])
              end
        end
  end.

(** [room:leave]. *)
Definition room_leave (sock : Socket) (rid : string) (now : Z) (w : World)
    : World * list Event :=
  match rooms w !! rid with
  | None => (w, [ev_error "Room not found"])
  | Some room =>
      if negb (isParticipant room (userId sock))
      then (w, [ev_error "Not in this room"])
      else
        let room1 := removeParticipant room (userId sock) in
        let room2 :=
          addChatMessage room1 None (s_username sock ++ " left the room")
                         system_t now in
        match participants room2 with
        | [] =>
            (with_rooms w (delete rid (rooms w)),
             [ev_room_deleted rid; ev_room_left rid;
              ev_room_user_left (userId sock)])
        | p0 :: _ =>
            let updated := if isPrivate room2 then [] else [ev_room_updated rid] in
            if isHost room2 (userId sock)
            then (save_room w rid (set_host room2 (p_user p0)),
                  [ev_room_host_changed (p_user p0); ev_room_left rid;
                   ev_room_user_left (userId sock)] ++ updated)
            else (save_room w rid room2,
                  [ev_room_left rid; ev_room_user_left (userId sock)] ++ updated)
        end
  end.

(** [POST /:roomId/leave]. *)
Definition rest_leave (uid : ObjectId) (rid : string) (w : World)
    : World * list Event :=
  match rooms w !! rid with
  | None => (w, [ev_error "Room not found"])
  | Some room =>
      if negb (isParticipant room uid) then (w, [ev_error "Not in this room"])
      else
        let room1 := removeParticipant room uid in
        match participants room1 with
        | [] => (with_rooms w (delete rid (rooms w)), [])
        | p0 :: _ =>
            if isHost room1 uid
            then (save_room w rid (set_host room1 (p_user p0)), [])
            else (save_room w rid room1, [])
        end
  end.

(** [room:toggle-ready].  The room is loaded with its participants
    populated, so [isParticipant] finds nobody; what follows the test is
    kept as it is written: the participant is found by [p.user._id], but
    [setParticipantReady], which compares [p.user.toString()], would find
    nobody either. *)
Definition room_toggle_ready (sock : Socket) (rid : string) (now : Z) (w : World)
    : World * list Event :=
  match rooms w !! rid with
  | None => (w, [ev_error "Room not found"])
  | Some room =>
      match isParticipant_populated (user_exists w) room (userId sock) with
      | None => (w, [ev_error "Failed to toggle ready status"])
      | Some false => (w, [ev_error "Not in this room"])
      | Some true =>
          match List.find (fun p => Nat.eqb (p_user p) (userId sock))
                          (participants room) with
          | None => (w, [ev_error "Failed to toggle ready status"])
          | Some participant =>
              let newReadyStatus := negb (isReady participant) in
              let msg := if newReadyStatus then "is ready" else "is not ready" in
              let room2 :=
                addChatMessage room None (s_username sock ++ " " ++ msg)
                               system_t now in
              let changed := ev_room_ready_changed (userId sock) newReadyStatus in
              if allParticipantsReady room2
              then (setTimeout (save_room w rid (set_status room2 ready))
                               now 5000 (auto_start_timer rid),
                    [changed; ev_room_all_ready 5])
              else (save_room w rid room2, [changed])
          end
      end
  end.

(** The callback armed by [room:toggle-ready], run at clock [now]; it loads
    the room plainly. *)
Definition auto_start (rid : string) (now : Z) (w : World) : World * list Event :=
  match rooms w !! rid with
  | None => (w, [])
  | Some latestRoom =>
      if allParticipantsReady latestRoom then
        match getRandomByDifficulty w (difficulty (settings latestRoom)) with
        | None => (w, [])
        | Some pid =>
            let room1 := (startBattle (set_problem latestRoom (Some pid)) now).2 in
            (save_room w rid room1,
             [ev_battle_start pid (startedAt (battle room1))])
        end
      else (w, [])
  end.

(** [allowedSettings.forEach(key => ...)] for the four keys of the socket
    handler. *)
Definition apply_settings (s : Settings) (si : SettingsInput) : Settings :=
  {| maxParticipants := default (maxParticipants s) (in_maxParticipants si);
     difficulty := default (difficulty s) (in_difficulty si);
     language := default (language s) (in_language si);
     timeLimit := default (timeLimit s) (in_timeLimit si);
     isRanked := isRanked s;
     allowSpectators := allowSpectators s |}.

(** [room:update-settings]; [save()] validates the modified settings. *)
Definition room_update_settings (sock : Socket) (rid : string)
    (si : SettingsInput) (w : World) : World * list Event :=
  match rooms w !! rid with
  | None => (w, [ev_error "Room not found"])
  | Some room =>
      if negb (isHost room (userId sock))
      then (w, [ev_error "Only host can update settings"])
      else if negb (bool_decide (status room = waiting))
      then (w, [ev_error "Cannot update settings after battle starts"])
      else
        let s' := apply_settings (settings room) si in
        if valid_settings s'
        then (save_room w rid (set_settings room s'), [ev_room_settings_updated s'])
        else (w, [ev_error "Failed to update room settings"])
  end.

(** [PUT /:roomId/settings]: the same, with [allowSpectators] as a fifth
    key. *)
Definition rest_update_settings (uid : ObjectId) (rid : string)
    (si : SettingsInput) (w : World) : World * list Event :=
  match rooms w !! rid with
  | None => (w, [ev_error "Room not found"])
  | Some room =>
      if negb (isHost room uid)
      then (w, [ev_error "Only host can update room settings"])
      else if negb (bool_decide (status room = waiting))
      then (w, [ev_error "Cannot update settings after battle starts"])
      else
        let s0 := apply_settings (settings room) si in
        let s' :=
          {| maxParticipants := maxParticipants s0; difficulty := difficulty s0;
             language := language s0; timeLimit := timeLimit s0;
             isRanked := isRanked s0;
             allowSpectators :=
               default (allowSpectators s0) (in_allowSpectators si) |} in
        if valid_settings s'
        then (save_room w rid (set_settings room s'), [])
        else (w, [ev_error "Failed to update room settings"])
  end.

End RoomHandlers.

(** ** Timers *)

Module Timers.

Definition fire (t : Timer) (w : World) : World * list Event :=
  match action t with
  | end_battle_timer rid => BattleHandlers.endBattle rid (fireAt t) w
  | auto_start_timer rid => RoomHandlers.auto_start rid (fireAt t) w
  end.

(** The timer that expires first among [ts], the one armed first on equal
    expiry, and the timers that stay. *)
Fixpoint earliest (ts : list Timer) : option (Timer * list Timer) :=
  match ts with
  | [] => None
  | t :: ts' =>
      match earliest ts' with
      | Some (t', rest) =>
          if fireAt t' <? fireAt t then Some (t', t :: rest) else Some (t, ts')
      | None => Some (t, [])
      end
  end.

(** Lets the clock reach [t]: every timer that has expired by then runs, in
    order of expiry.  No callback of this program arms a timer, so the
    number of pending timers bounds the number of rounds. *)
Fixpoint run_timers (rounds : nat) (t : Z) (w : World) : World * list Event :=
  match rounds with
  | O => (w, [])
  | S n =>
      match earliest (timers w) with
      | Some (tm, rest) =>
          if fireAt tm <=? t then
            let '(w1, e1) := fire tm (with_timers w rest) in
            let '(w2, e2) := run_timers n t w1 in
            (w2, e1 ++ e2)
          else (w, [])
      | None => (w, [])
      end
  end.

Definition advance (t : Z) (w : World) : World * list Event :=
  run_timers (length (timers w)) t w.

End Timers.

(** ** Sample data

    Server states built by the handlers themselves, on which the properties
    below are exercised.  Clocks are in milliseconds. *)

Module Samples.
Import RoomModel BattleHandlers RoomHandlers.

Definition room1 : string := "ROOM0001".

Definition alice : Socket := {| userId := 1; s_username := "alice" |}.
Definition bob : Socket := {| userId := 2; s_username := "bob" |}.
Definition carol : Socket := {| userId := 3; s_username := "carol" |}.

Definition fresh_user (n : string) : User :=
  {| username := n;
     statistics :=
       {| totalBattles := 0; wins := 0; losses := 0; draws := 0;
          rating := 1200; rank := Bronze; averageTime := 0;
          problemsSolved :=
            {| solved_easy := 0; solved_medium := 0; solved_hard := 0 |} |} |}.

Definition all_users : gmap ObjectId User :=
  <[1%nat := fresh_user "alice"]>
    (<[2%nat := fresh_user "bob"]> (<[3%nat := fresh_user "carol"]> ∅)).

(** Three registered users, no room, and a catalog that hands out
    problem 7. *)
Definition empty_world : World :=
  {| rooms := ∅; matches := []; users := all_users; timers := [];
     getRandomByDifficulty := fun _ => Some 7%nat |}.

Definition test_case (ok : bool) : TestResult :=
  {| input := "2 3"; expectedOutput := "5";
     actualOutput := if ok then "5" else "6";
     passed := ok; executionTime := 12 |}.

(** Five test results of which the first [k] pass. *)
Definition five_tests (k : nat) : list TestResult :=
  replicate k (test_case true) ++ replicate (5 - k) (test_case false).

(** Three seats, five minutes. *)
Definition three_seats : SettingsInput :=
  {| in_maxParticipants := Some 3; in_difficulty := None; in_language := None;
     in_timeLimit := Some 5; in_isRanked := None; in_allowSpectators := None |}.

Definition shrink_to_two : SettingsInput :=
  {| in_maxParticipants := Some 2; in_difficulty := None; in_language := None;
     in_timeLimit := None; in_isRanked := None; in_allowSpectators := None |}.

(** [h] opens the room at 1 s and [g] joins at 2 s. *)
Definition lobby_of (h g : Socket) : World :=
  (room_join g room1 None 2000
     (room_create h room1 "friday" three_seats false None 1000 empty_world).1).1.

Definition lobby : World := lobby_of alice bob.

(** carol takes the third and last seat. *)
Definition lobby_full : World := (room_join carol room1 None 2500 lobby).1.

(** The room of a sample state. *)
Definition room_in (w : World) : Room :=
  default (new_room room1 "" 0 three_seats false None) (rooms w !! room1).

(** No handler sets a ready flag or the status ready (see C7), so a room
    that is about to start is put in the store as it is: every
    participant's flag set by [setParticipantReady], and the status
    ready. *)
Definition readied (r : Room) : Room :=
  set_status
    (fold_left (fun r' p => (setParticipantReady r' (p_user p) true).2)
               (participants r) r)
    ready.

(** The room of the lobby stored as ready; the countdown callback starts
    the battle at 9 s. *)
Definition arena_of (h g : Socket) : World :=
  (auto_start room1 9000
     (save_room (lobby_of h g) room1 (readied (room_in (lobby_of h g))))).1.

Definition arena : World := arena_of alice bob.

(** [who] submits at [at_] a solution that passes [k] tests of five; the
    oracle answers 800 ms later. *)
Definition submit (who : Socket) (k : nat) (at_ : Z) (w : World) : World :=
  (battle_submit who room1 "return a + b" "javascript" at_
     (Some (five_tests k)) (at_ + 800) w).1.

(** alice scores 60 and bob 80. *)
Definition arena_60_80 : World := submit bob 4 50000 (submit alice 3 40000 arena).

(** alice and bob both score 80, in a room alice opened and in one bob
    opened. *)
Definition arena_tie : World := submit bob 4 50000 (submit alice 4 40000 arena).

Definition arena_tie_swapped : World :=
  submit bob 4 50000 (submit alice 4 40000 (arena_of bob alice)).

(** alice opens the room and joins it once more. *)
Definition alice_twice : World := lobby_of alice alice.

(** The match of the specification's ranking example: scores 80, 80, 60
    and times 120 s, 90 s, 200 s. *)
Definition entry_of (id : ObjectId) (sc spent : Z) : MatchParticipant :=
  {| m_user := id; m_finalScore := sc; m_rank := 0; m_timeSpent := spent;
     m_submissionCount := 1; correctTestCases := 0; totalTestCases := 5 |}.

Definition match_80_80_60 : Match :=
  {| matchId := (room1, 200000); m_room := room1; m_problem := 7%nat;
     m_participants := [entry_of 1 80 120; entry_of 2 80 90; entry_of 3 60 200];
     m_settings :=
       {| maxParticipants := 3; difficulty := medium; language := "any";
          timeLimit := 5; isRanked := true; allowSpectators := true |};
     m_battle := {| mb_startedAt := 0; mb_endedAt := 200000;
                    mb_duration := 200; mb_winner := None |} |}.

End Samples.


(** ** Observations *)

(** User, final score and rank of each participant, as a match records them
    and as [battle:ended] sends them. *)
Definition recorded_ranks (m : Match) : list (ObjectId * Z * Z) :=
  map (fun p => (m_user p, m_finalScore p, m_rank p)) (m_participants m).

Definition broadcast_ranks (e : Event) : list (ObjectId * Z * Z) :=
  match e with
  | ev_battle_ended rk _ _ _ => map (fun x => (r_user x.1, finalScore x.1, x.2)) rk
  | _ => []
  end.

Definition recorded_winner (m : Match) : option ObjectId :=
  mb_winner (m_battle m).

Definition room_status (w : World) (rid : string) : option Status :=
  status <$> rooms w !! rid.

Definition room_ended_at (w : World) (rid : string) : option (option Z) :=
  (fun r => endedAt (battle r)) <$> rooms w !! rid.

(** The stored submission state of a participant: [lastSubmission] and
    [currentCode]. *)
Definition submission_state (w : World) (rid : string) (uid : ObjectId)
    : option (option Submission * string) :=
  r ← rooms w !! rid;
  p ← List.find (fun p => Nat.eqb (p_user p) uid) (participants r);
  Some (lastSubmission p, currentCode p).

Definition rating_of (w : World) (uid : ObjectId) : option Z :=
  (fun u => rating (statistics u)) <$> users w !! uid.

(** The rating the ending path leaves a participant with: the recorded
    winner is rated as a win, everybody else as a loss. *)
Definition settled_rating (win : option ObjectId) (uid : ObjectId) (r : Z) : Z :=
  match win with
  | Some wid => if Nat.eqb wid uid then r + 25 else Z.max 800 (r - 20)
  | None => Z.max 800 (r - 20)
  end.

(** What is left of the time limit at clock [now], in milliseconds. *)
Definition remaining (room : Room) (t0 now : Z) : Z :=
  timeLimit (settings room) * 60 * 1000 - (now - t0).

Definition remaining_in (w : World) (rid : string) (now : Z) : option Z :=
  r ← rooms w !! rid;
  t0 ← startedAt (battle r);
  Some (remaining r t0 now).

(** Number of participants, capacity and free seats of a stored room. *)
Definition seats (w : World) (rid : string) : option (Z * Z * Z) :=
  (fun r => (RoomModel.participantCount r, maxParticipants (settings r),
             RoomModel.availableSlots r)) <$> rooms w !! rid.

(** ** Invariants of the stored rooms *)

(** Participants are appended when they join, so the array is in join
    order: nobody stands before somebody who joined strictly earlier. *)
Definition join_ordered (ps : list Participant) : Prop :=
  forall (i j : nat) (p q : Participant),
    (i <= j)%nat -> ps !! i = Some p -> ps !! j = Some q ->
    joinedAt p <= joinedAt q.

(** No user is listed twice. *)
Definition distinct_users (ps : list Participant) : Prop :=
  NoDup (map p_user ps).

(** How many entries a user has among the participants. *)
Definition entries (uid : ObjectId) (ps : list Participant) : nat :=
  length (List.filter (fun p => Nat.eqb (p_user p) uid) ps).

(** The capacity bound on one room and on every stored room. *)
Definition within_capacity (r : Room) : Prop :=
  RoomModel.participantCount r <= maxParticipants (settings r).

Definition all_within_capacity (w : World) : Prop :=
  forall rid r, rooms w !! rid = Some r -> within_capacity r.

(** The quorum: at least two participants, all of them ready. *)
Definition quorum (r : Room) : Prop :=
  (2 <= length (participants r))%nat /\
  Forall (fun p => isReady p = true) (participants r).

(** A well-formed room, at a clock that has reached [T]: the participants
    stand in join order and joined by [T], and a room in progress has a
    start time and a problem.  (A user can be listed more than once: the
    join handlers do not see that somebody is already in the room.) *)
Definition room_ok (T : Z) (r : Room) : Prop :=
  join_ordered (participants r) /\
  Forall (fun p => joinedAt p <= T) (participants r) /\
  (status r = in_progress ->
   is_Some (startedAt (battle r)) /\ is_Some (problem r)).

Definition all_ok (T : Z) (w : World) : Prop :=
  forall rid r, rooms w !! rid = Some r -> room_ok T r.

(** What the handlers that are not spelled out above (chat, spectators,
    live code) leave alone in a room: who participates and when they
    joined, the status, the battle block and the problem. *)
Definition same_battle (r r' : Room) : Prop :=
  map p_user (participants r') = map p_user (participants r) /\
  map joinedAt (participants r') = map joinedAt (participants r) /\
  status r' = status r /\ battle r' = battle r /\ problem r' = problem r.

(** One event handled at clock [now], the clock being read again at [later]
    by the handler that waits for the scoring oracle; or the timers that
    have expired by [now] being run; or one of the other handlers saving a
    room, a room being deleted, the users being edited. *)
Inductive step (now : Z) (w : World) : World -> Prop :=
  | step_create sock rid nm si priv pw :
      step now w (RoomHandlers.room_create sock rid nm si priv pw now w).1
  | step_join sock rid pw :
      step now w (RoomHandlers.room_join sock rid pw now w).1
  | step_rest_join uid rid pw :
      step now w (RoomHandlers.rest_join uid rid pw now w).1
  | step_leave sock rid :
      step now w (RoomHandlers.room_leave sock rid now w).1
  | step_rest_leave uid rid :
      step now w (RoomHandlers.rest_leave uid rid w).1
  | step_toggle_ready sock rid :
      step now w (RoomHandlers.room_toggle_ready sock rid now w).1
  | step_update_settings sock rid si :
      step now w (RoomHandlers.room_update_settings sock rid si w).1
  | step_rest_update_settings uid rid si :
      step now w (RoomHandlers.rest_update_settings uid rid si w).1
  | step_submit sock rid c lang oracle later :
      now <= later ->
      step now w (BattleHandlers.battle_submit sock rid c lang now oracle later w).1
  | step_force_end sock rid :
      step now w (BattleHandlers.battle_force_end sock rid now w).1
  | step_timers :
      step now w (Timers.advance now w).1
  | step_other_room rid room room' :
      rooms w !! rid = Some room -> same_battle room room' ->
      step now w (save_room w rid room')
  | step_delete_room rid :
      step now w (with_rooms w (delete rid (rooms w)))
  | step_users us :
      step now w (with_users w us).

(** The server states reached from an empty store by handling events at
    clocks that do not go back; [T] is the clock of the last event. *)
Inductive reachable_at : Z -> World -> Prop :=
  | reachable_start T w :
      rooms w = ∅ -> timers w = [] -> reachable_at T w
  | reachable_step T now w w' :
      reachable_at T w -> T <= now -> step now w w' -> reachable_at now w'.

(** * Properties *)

(** ** The chat log *)

Section Chat.
Import RoomModel.

Lemma slice_last_length {A} (n : nat) (l : list A) :
  length (slice_last n l) = (length l `min` n)%nat.
Proof. unfold slice_last. rewrite length_drop. lia. Qed.

Lemma slice_last_suffix {A} (n : nat) (l : list A) :
  take (length l - n) l ++ slice_last n l = l.
Proof. unfold slice_last. apply take_drop. Qed.

Lemma slice_last_short {A} (n : nat) (l : list A) :
  (length l <= n)%nat -> slice_last n l = l.
Proof.
  intros Hle. unfold slice_last.
  replace (length l - n)%nat with 0%nat by lia. reflexivity.
Qed.

(** C10.  After [addChatMessage] the chat holds at most 100 messages: it is
    the old chat followed by the new message, cut down to its last 100
    entries, in their order; what is dropped is a prefix, that is the
    oldest messages. *)
Theorem addChatMessage_keeps_last_100 (r : Room) (uid : option ObjectId)
    (msg : string) (ty : ChatType) (now : Z) :
  let pushed := chat r ++ [{| c_user := uid; message := msg; c_type := ty;
                              timestamp := now |}] in
  let r' := addChatMessage r uid msg ty now in
  (length (chat r') <= 100)%nat /\
  chat r' = slice_last 100 pushed /\
  length (chat r') = (length pushed `min` 100)%nat /\
  take (length pushed - 100) pushed ++ chat r' = pushed /\
  participants r' = participants r /\ status r' = status r.
Proof.
  intros pushed r'.
  assert (Hchat : chat r' = slice_last 100 pushed).
  { subst r'. unfold addChatMessage. fold pushed. simpl.
    destruct (100 <? length pushed)%nat eqn:Hlen; [reflexivity|].
    apply Nat.ltb_ge in Hlen. symmetry. by apply slice_last_short. }
  rewrite Hchat, slice_last_length.
  repeat split; try lia.
  apply slice_last_suffix.
Qed.

End Chat.

(** ** Leaving a room *)

Section Leave.
Import RoomModel RoomHandlers.

Lemma join_ordered_cons p ps :
  join_ordered (p :: ps) <->
  Forall (fun q => joinedAt p <= joinedAt q) ps /\ join_ordered ps.
Proof.
  split.
  - intros H. split.
    + apply Forall_lookup. intros k q Hq.
      apply (H 0%nat (S k) p q); [lia|done|done].
    + intros i j a b Hij Ha Hb. apply (H (S i) (S j)); [lia|done|done].
  - intros [Hall Hps] i j a b Hij Ha Hb.
    destruct i as [|i], j as [|j]; simpl in *; simplify_eq; try lia.
    + rewrite Forall_lookup in Hall. eauto.
    + eapply Hps; [|done|done]. lia.
Qed.

Lemma join_ordered_filter (f : Participant -> bool) ps :
  join_ordered ps -> join_ordered (List.filter f ps).
Proof.
  induction ps as [|p ps IH]; [done|].
  rewrite join_ordered_cons. intros [Hall Hps]. simpl.
  destruct (f p); [|by apply IH].
  apply join_ordered_cons. split; [|by apply IH].
  rewrite Forall_forall in *. intros q Hq.
  apply Hall. apply list_elem_of_In in Hq. apply list_elem_of_In.
  apply filter_In in Hq. tauto.
Qed.

Lemma join_ordered_snoc ps p :
  join_ordered ps -> Forall (fun q => joinedAt q <= joinedAt p) ps ->
  join_ordered (ps ++ [p]).
Proof.
  intros Hps Hall i j a b Hij Ha Hb.
  destruct (decide (j < length ps)%nat) as [Hj|Hj].
  - rewrite lookup_app_l in Ha by lia. rewrite lookup_app_l in Hb by lia.
    eauto.
  - rewrite lookup_app_r in Hb by lia.
    destruct (j - length ps)%nat eqn:E; simpl in Hb; [|by destruct n].
    simplify_eq.
    destruct (decide (i < length ps)%nat) as [Hi|Hi].
    + rewrite lookup_app_l in Ha by lia.
      rewrite Forall_lookup in Hall. eauto.
    + rewrite lookup_app_r in Ha by lia.
      destruct (i - length ps)%nat eqn:E'; simpl in Ha; [|by destruct n].
      simplify_eq. lia.
Qed.

(** Joining at a clock that has not gone back keeps the join order, and
    the guard of [addParticipant] keeps the users distinct. *)
Lemma addParticipant_join_ordered r uid now :
  join_ordered (participants r) ->
  Forall (fun q => joinedAt q <= now) (participants r) ->
  join_ordered (participants (addParticipant r uid now).2).
Proof.
  intros Hps Hall. unfold addParticipant.
  destruct (isFull r || isParticipant r uid); [done|]. simpl.
  by apply join_ordered_snoc.
Qed.

Lemma isParticipant_spec r uid :
  isParticipant r uid = true <-> uid ∈ map p_user (participants r).
Proof.
  unfold isParticipant. rewrite existsb_exists, list_elem_of_fmap.
  split.
  - intros (p & Hin & Heq). apply Nat.eqb_eq in Heq.
    exists p. split; [done|]. by apply list_elem_of_In.
  - intros (p & -> & Hin). exists p. split; [by apply list_elem_of_In|].
    apply Nat.eqb_refl.
Qed.

Lemma addParticipant_distinct r uid now :
  distinct_users (participants r) ->
  distinct_users (participants (addParticipant r uid now).2).
Proof.
  intros Hnd. unfold addParticipant.
  destruct (isFull r) eqn:Hfull; [done|]. simpl.
  destruct (isParticipant r uid) eqn:Hpart; [done|]. simpl.
  unfold distinct_users. rewrite map_app. simpl.
  apply NoDup_app. split; [done|]. split; [|apply NoDup_singleton].
  intros x Hx Hx'. apply list_elem_of_singleton in Hx'. subst x.
  apply isParticipant_spec in Hx. congruence.
Qed.

Lemma removeParticipant_distinct r uid :
  distinct_users (participants r) ->
  distinct_users (participants (removeParticipant r uid)).
Proof.
  unfold distinct_users, removeParticipant. simpl.
  induction (participants r) as [|p ps IH]; [done|].
  simpl. rewrite NoDup_cons. intros [Hp Hps].
  destruct (negb (p_user p =? uid)%nat); [|by apply IH].
  simpl. apply NoDup_cons. split; [|by apply IH].
  intros Hin. apply Hp.
  apply list_elem_of_fmap in Hin as (q & Hq & Hin).
  apply list_elem_of_fmap. exists q. split; [done|].
  apply list_elem_of_In in Hin. apply filter_In in Hin.
  apply list_elem_of_In. tauto.
Qed.

(** With distinct users, removing one from two or more leaves somebody. *)
Lemma removeParticipant_nonempty r uid :
  distinct_users (participants r) -> (2 <= length (participants r))%nat ->
  participants (removeParticipant r uid) <> [].
Proof.
  unfold distinct_users, removeParticipant. simpl.
  destruct (participants r) as [|p [|q ps]]; simpl; try lia.
  intros Hnd _. apply NoDup_cons in Hnd as [Hp _].
  rewrite not_elem_of_cons in Hp. destruct Hp as [Hpq _].
  destruct (Nat.eqb_spec (p_user p) uid) as [Hp|]; simpl; [|done].
  destruct (Nat.eqb_spec (p_user q) uid) as [Hq|]; simpl; [congruence|done].
Qed.

(** The head of a join-ordered array joined no later than anybody in it. *)
Lemma join_ordered_head p ps q :
  join_ordered (p :: ps) -> q ∈ p :: ps -> joinedAt p <= joinedAt q.
Proof.
  intros [Hall _]%join_ordered_cons [->|Hq]%elem_of_cons; [lia|].
  rewrite Forall_forall in Hall. by apply Hall.
Qed.

(** Leaving a room whose participants are in join order.  Every entry of
    the user who leaves is removed.  When somebody remains the room stays,
    and if the host left, the host's seat goes to the first who remains, who
    joined no later than anybody else who remains; a room left empty is
    deleted.  Somebody remains when the users are distinct and two or more. *)
Lemma leave_fifo (sock : Socket) (rid : string)
    (now : Z) (w : World) (room : Room) :
  rooms w !! rid = Some room ->
  isParticipant room (userId sock) = true ->
  join_ordered (participants room) ->
  let remaining := participants (removeParticipant room (userId sock)) in
  let w1 := (room_leave sock rid now w).1 in
  let w2 := (rest_leave (userId sock) rid w).1 in
  (remaining <> [] ->
   exists room1 room2 p0,
     rooms w1 !! rid = Some room1 /\ rooms w2 !! rid = Some room2 /\
     participants room1 = remaining /\ participants room2 = remaining /\
     head remaining = Some p0 /\ p_user p0 <> userId sock /\
     (forall q, q ∈ remaining -> joinedAt p0 <= joinedAt q) /\
     host room1 = (if isHost room (userId sock) then p_user p0 else host room) /\
     host room2 = host room1) /\
  (remaining = [] -> rooms w1 !! rid = None /\ rooms w2 !! rid = None) /\
  (distinct_users (participants room) ->
   (2 <= length (participants room))%nat -> remaining <> []).
Proof.
  intros Hroom Hpart Hord remaining w1 w2.
  assert (Hrem : join_ordered remaining).
  { subst remaining. unfold removeParticipant. simpl.
    by apply join_ordered_filter. }
  assert (Hne : distinct_users (participants room) ->
                (2 <= length (participants room))%nat -> remaining <> [])
    by (intros; by apply removeParticipant_nonempty).
  assert (Hself : forall q, q ∈ remaining -> p_user q <> userId sock).
  { intros q Hq Heq. subst remaining. unfold removeParticipant in Hq.
    simpl in Hq. apply list_elem_of_In, filter_In in Hq as [_ Hneq].
    rewrite Heq, Nat.eqb_refl in Hneq. done. }
  subst w1 w2. unfold room_leave, rest_leave. rewrite Hroom, Hpart.
  cbn [negb].
  change (participants (addChatMessage (removeParticipant room (userId sock))
            None (s_username sock ++ " left the room") system_t now))
    with remaining.
  change (isHost (addChatMessage (removeParticipant room (userId sock))
            None (s_username sock ++ " left the room") system_t now)
            (userId sock))
    with (isHost room (userId sock)).
  change (isHost (removeParticipant room (userId sock)) (userId sock))
    with (isHost room (userId sock)).
  change (participants (removeParticipant room (userId sock))) with remaining.
  assert (E : participants (removeParticipant room (userId sock)) = remaining)
    by reflexivity.
  clearbody remaining.
  destruct remaining as [|p0 rest].
  - split_and!; [done| |done].
    intros _. simpl. by rewrite lookup_delete_eq.
  - split_and!; [|done|done].
    intros _.
    assert (Hp0 : p_user p0 <> userId sock)
      by (apply Hself, elem_of_cons; by left).
    assert (Hfirst : forall q, q ∈ p0 :: rest -> joinedAt p0 <= joinedAt q)
      by (intros q Hq; by eapply join_ordered_head).
    destruct (isHost room (userId sock)); simpl; rewrite !lookup_insert_eq;
      eexists _, _, p0; split_and!; try reflexivity; try exact E; done.
Qed.

End Leave.

(** ** The ending path *)

Section Settlement.
Import RoomModel BattleHandlers.

Lemma populated_all (w : World) (ps : list Participant) :
  forallb (fun p => bool_decide (is_Some (users w !! p_user p))) ps = true <->
  (forall p, p ∈ ps -> is_Some (users w !! p_user p)).
Proof.
  rewrite forallb_forall. split.
  - intros H p Hp. apply list_elem_of_In, H in Hp.
    by apply bool_decide_eq_true in Hp.
  - intros H p Hp. apply bool_decide_eq_true, H. by apply list_elem_of_In.
Qed.

(** On a room that is not in progress the ending path does nothing. *)
Lemma endBattle_skips (rid : string) (now : Z) (w : World) (room : Room) :
  rooms w !! rid = Some room -> status room <> in_progress ->
  endBattle rid now w = (w, []).
Proof.
  intros Hroom Hst. unfold endBattle. rewrite Hroom.
  by rewrite bool_decide_eq_false_2.
Qed.

(** What the ending path does to a started room with a problem whose
    participants all exist: the room is saved as completed, one match is
    appended, and only the users change besides. *)
Lemma endBattle_settles (rid : string) (now : Z) (w : World) (room : Room)
    (t0 : Z) (pid : ObjectId) :
  rooms w !! rid = Some room -> status room = in_progress ->
  startedAt (battle room) = Some t0 -> problem room = Some pid ->
  (forall p, p ∈ participants room -> is_Some (users w !! p_user p)) ->
  let res := map (result_of room now) (participants room) in
  let room1 := RoomModel.endBattle room res now in
  exists m,
    rooms (endBattle rid now w).1 = <[rid := room1]> (rooms w) /\
    matches (endBattle rid now w).1 = matches w ++ [m] /\
    timers (endBattle rid now w).1 = timers w /\
    users (endBattle rid now w).1 =
      (update_statistics room1 res (participants room) (users w)).1 /\
    m_participants m = map (match_participant res) res /\
    mb_winner (m_battle m) = winner (battle room1) /\
    mb_endedAt (m_battle m) = now.
Proof.
  intros Hroom Hst Ht0 Hpid Hus res room1. unfold endBattle.
  rewrite Hroom, Hst, bool_decide_eq_true_2 by done. cbn [negb].
  apply populated_all in Hus. rewrite Hus. cbn [negb].
  fold res. fold room1.
  replace (startedAt (battle room1)) with (Some t0)
    by (subst room1; simpl; congruence).
  replace (duration (battle room1)) with (Some (round_div (now - t0) 1000))
    by (subst room1; simpl; by rewrite Ht0).
  replace (problem room1) with (Some pid) by (subst room1; simpl; congruence).
  change (participants room1) with (participants room).
  cbn [users save_room with_matches with_rooms].
  destruct (update_statistics room1 res (participants room) (users w))
    as [us finished].
  eexists. simpl. split_and!; reflexivity.
Qed.

(** What the countdown callback stores when it starts a battle: a room in
    progress with the start time and the problem set. *)
Lemma auto_start_started (rid : string) (now : Z) (w : World) (room : Room)
    (pid : ObjectId) :
  rooms w !! rid = Some room ->
  allParticipantsReady room = true -> status room = ready ->
  getRandomByDifficulty w (difficulty (settings room)) = Some pid ->
  exists room',
    rooms (RoomHandlers.auto_start rid now w).1 !! rid = Some room' /\
    status room' = in_progress /\ startedAt (battle room') = Some now /\
    problem room' = Some pid /\ participants room' = participants room.
Proof.
  intros Hroom Hall Hst Hpid. unfold RoomHandlers.auto_start.
  rewrite Hroom, Hall, Hpid. unfold startBattle.
  change (allParticipantsReady (set_problem room (Some pid)))
    with (allParticipantsReady room).
  change (status (set_problem room (Some pid))) with (status room).
  rewrite Hall, Hst, bool_decide_eq_true_2 by done.
  eexists. simpl. rewrite lookup_insert_eq. by split_and!.
Qed.

(** C2.  The ending path run a second time on the same room, by a timer, a
    forced end or a direct call, finds the room completed and returns at
    once: on a room in progress with its start time and problem set, as
    [startBattle] and the countdown leave it, the first run has appended
    exactly one match, and the second neither creates a match nor changes
    anything nor emits anything. *)
Theorem endBattle_twice_one_match (rid : string) (t1 t2 : Z) (w : World)
    (room : Room) (sock : Socket) :
  rooms w !! rid = Some room -> status room = in_progress ->
  is_Some (startedAt (battle room)) -> is_Some (problem room) ->
  Forall (fun p => is_Some (users w !! p_user p)) (participants room) ->
  let w1 := (endBattle rid t1 w).1 in
  length (matches w1) = S (length (matches w)) /\
  (exists room1, rooms w1 !! rid = Some room1 /\ status room1 = completed) /\
  endBattle rid t2 w1 = (w1, []) /\
  Timers.fire {| fireAt := t2; action := end_battle_timer rid |} w1 = (w1, []) /\
  (battle_force_end sock rid t2 w1).1 = w1.
Proof.
  intros Hroom Hst [t0 Ht0] [pid Hpid] Hus w1.
  rewrite Forall_forall in Hus.
  destruct (endBattle_settles rid t1 w room t0 pid Hroom Hst Ht0 Hpid Hus)
    as (m & Hrooms & Hmatches & _).
  fold w1 in Hrooms, Hmatches.
  assert (Hlook : rooms w1 !! rid =
            Some (RoomModel.endBattle room
                    (map (result_of room t1) (participants room)) t1))
    by (rewrite Hrooms; apply lookup_insert_eq).
  assert (Hskip : endBattle rid t2 w1 = (w1, []))
    by (eapply endBattle_skips; [exact Hlook|done]).
  split_and!.
  - rewrite Hmatches, length_app. simpl. lia.
  - eexists. split; [exact Hlook|done].
  - exact Hskip.
  - exact Hskip.
  - unfold battle_force_end. rewrite Hlook.
    destruct (negb _); [done|]. by rewrite Hskip.
Qed.

End Settlement.

(** ** Ranks and winner *)

Section Ranking.
Import RoomModel BattleHandlers MatchModel Samples.

(** The order the match model sorts by: higher score first, then less
    time, then fewer submissions. *)
Lemma compare_participants_le (a b : MatchParticipant) :
  compare_participants a b <= 0 <->
  m_finalScore b < m_finalScore a \/
  (m_finalScore a = m_finalScore b /\
   (m_timeSpent a < m_timeSpent b \/
    (m_timeSpent a = m_timeSpent b /\
     m_submissionCount a <= m_submissionCount b))).
Proof.
  unfold compare_participants.
  destruct (Z.eqb_spec (m_finalScore b) (m_finalScore a)); simpl; [|lia].
  destruct (Z.eqb_spec (m_timeSpent a) (m_timeSpent b)); simpl; lia.
Qed.

Lemma insert_sorted_perm x l : insert_sorted x l ≡ₚ x :: l.
Proof.
  induction l as [|y l IH]; simpl; [done|].
  destruct (compare_participants x.2 y.2 <=? 0); [done|].
  rewrite IH. apply Permutation_swap.
Qed.

Lemma sort_participants_perm l : sort_participants l ≡ₚ l.
Proof.
  induction l as [|x l IH]; simpl; [done|].
  rewrite insert_sorted_perm. by rewrite IH.
Qed.

Lemma insert_sorted_sorted x l :
  StronglySorted (fun a b => compare_participants a.2 b.2 <= 0) l ->
  StronglySorted (fun a b => compare_participants a.2 b.2 <= 0)
                 (insert_sorted x l).
Proof.
  induction l as [|y l IH]; simpl; intros Hs.
  - constructor; [constructor|constructor].
  - apply StronglySorted_inv in Hs as [Hl Hy].
    destruct (Z.leb_spec (compare_participants x.2 y.2) 0) as [Hle|Hgt].
    + constructor; [by constructor|].
      constructor; [done|].
      eapply Forall_impl; [exact Hy|]. intros z Hz. simpl in Hz.
      apply compare_participants_le in Hle, Hz.
      apply compare_participants_le. lia.
    + constructor; [by apply IH|].
      rewrite insert_sorted_perm. constructor; [|done].
      apply compare_participants_le.
      assert (Hn : ~ compare_participants x.2 y.2 <= 0) by lia.
      rewrite compare_participants_le in Hn. lia.
Qed.

(** What [calculateRankings] of the match model sorts is a rearrangement
    of the participants in which nobody stands after somebody they beat. *)
Lemma sort_participants_sorted l :
  StronglySorted (fun a b => compare_participants a.2 b.2 <= 0)
                 (sort_participants l).
Proof.
  induction l as [|x l IH]; simpl; [constructor|].
  by apply insert_sorted_sorted.
Qed.

(** The specification's example, on the match model: scores 80, 80, 60
    with times 120 s, 90 s, 200 s are ranked 2, 1, 3. *)
Example calculateRankings_80_80_60 :
  map (fun p => (m_user p, m_rank p))
      (m_participants (calculateRankings match_80_80_60))
    = [(1%nat, 2); (2%nat, 1); (3%nat, 3)] /\
  mb_winner (m_battle (calculateRankings match_80_80_60)) = Some 2%nat.
Proof. split; reflexivity. Qed.

Lemma findIndex_nonneg id res : -1 <= findIndex id res.
Proof.
  induction res as [|r res IH]; simpl; [lia|].
  destruct (r_user r =? id)%nat; [lia|].
  destruct (findIndex id res <? 0) eqn:E; lia.
Qed.

Lemma findIndex_lookup (res : list Result) (i : nat) (r : Result) :
  NoDup (map r_user res) -> res !! i = Some r ->
  findIndex (r_user r) res = Z.of_nat i.
Proof.
  revert i. induction res as [|r0 res IH]; intros i Hnd Hi; [done|].
  simpl in Hnd. apply NoDup_cons in Hnd as [Hr0 Hnd].
  destruct i as [|i]; simpl in *.
  - simplify_eq. by rewrite Nat.eqb_refl.
  - destruct (Nat.eqb_spec (r_user r0) (r_user r)) as [Heq|_].
    + destruct Hr0. rewrite Heq. apply list_elem_of_fmap.
      exists r. split; [done|]. by eapply list_elem_of_lookup_2.
    + rewrite (IH i Hnd Hi).
      destruct (Z.ltb_spec (Z.of_nat i) 0); lia.
Qed.

(** The rank the ending path writes into the match, and the rank it
    broadcasts, is the position of the participant in [room.participants],
    counted from one, whatever the scores. *)
Lemma endBattle_rank_is_position (room : Room) (now : Z) (i : nat)
    (p : Participant) :
  distinct_users (participants room) -> participants room !! i = Some p ->
  let res := map (result_of room now) (participants room) in
  map (match_participant res) res !! i
    = Some (match_participant res (result_of room now p)) /\
  m_rank (match_participant res (result_of room now p)) = Z.of_nat i + 1 /\
  ranked res !! i = Some (result_of room now p, Z.of_nat i + 1).
Proof.
  intros Hnd Hi res.
  assert (Hres : res !! i = Some (result_of room now p))
    by (subst res; by rewrite list_lookup_fmap, Hi).
  split_and!.
  - by rewrite list_lookup_fmap, Hres.
  - unfold match_participant. cbn [m_rank].
    rewrite (findIndex_lookup res i (result_of room now p)); [lia| |done].
    subst res. unfold distinct_users in Hnd.
    by rewrite <- list_fmap_compose.
  - unfold ranked. by rewrite list_lookup_imap, Hres.
Qed.

(** Every participant is given the same time spent: the time from the
    start of the battle to its end. *)
Lemma result_of_same_time (room : Room) (now : Z) (p q : Participant) :
  timeSpent (result_of room now p) = timeSpent (result_of room now q).
Proof. reflexivity. Qed.

(** The winner [Room.endBattle] keeps is a participant with the highest
    score, and the last such one in the array. *)
Lemma pick_winner_last_max (r0 : Result) (rest : list Result) :
  exists before after,
    r0 :: rest = before ++ pick_winner r0 rest :: after /\
    Forall (fun r => finalScore r <= finalScore (pick_winner r0 rest)) before /\
    Forall (fun r => finalScore r < finalScore (pick_winner r0 rest)) after.
Proof.
  unfold pick_winner. revert r0.
  induction rest as [|r rest IH]; intros r0; simpl.
  - exists [], []. by split_and!.
  - set (acc := if finalScore r0 >? finalScore r then r0 else r).
    destruct (IH acc) as (before & after & Heq & Hb & Ha).
    set (win := fold_left _ rest acc) in *.
    assert (Hacc : finalScore acc <= finalScore win).
    { destruct before as [|b before]; simpl in Heq; injection Heq as H1 H2.
      - rewrite H1. lia.
      - rewrite H1. by apply Forall_cons in Hb as [Hb _]. }
    subst acc.
    destruct (Z.gtb_spec (finalScore r0) (finalScore r)) as [Hgt|Hle].
    + destruct before as [|b before]; simpl in Heq; injection Heq as Hw Hrest.
      * exists [], (r :: rest). simpl. split_and!; [by rewrite <- Hw|done|].
        constructor; [lia|]. by rewrite Hrest.
      * exists (r0 :: r :: before), after. simpl.
        split_and!; [by rewrite Hrest| |done].
        rewrite <- Hw in Hb. apply Forall_cons in Hb as [Hb1 Hb2].
        constructor; [done|]. constructor; [lia|done].
    + exists (r0 :: before), after. simpl. split_and!; [by rewrite <- Heq| |done].
      constructor; [lia|done].
Qed.

End Ranking.

(** ** Submitting *)

Section Submit.
Import RoomModel BattleHandlers Samples.

Lemma time_is_up_iff (room : Room) (t0 now : Z) :
  startedAt (battle room) = Some t0 ->
  time_is_up room now = true <-> remaining room t0 now < 0.
Proof.
  intros Ht0. unfold time_is_up, remaining. rewrite Ht0.
  rewrite Z.gtb_ltb, Z.ltb_lt. lia.
Qed.

(** Against C5 as it stands: alice submits exactly five minutes after the
    start of a five-minute battle, when nothing remains of the time limit,
    and the submission is evaluated and stored. *)
Lemma submit_at_limit_is_stored :
  let out := battle_submit alice room1 "return a + b" "javascript" 309000
               (Some (five_tests 5)) 309800 arena in
  room_status arena room1 = Some in_progress /\
  remaining_in arena room1 309000 = Some 0 /\
  out.2 = [ev_submission_processing; ev_submission_result 100 5 5;
           ev_battle_submission 1 100] /\
  submission_state arena room1 1 = Some (None, ""%string) /\
  submission_state out.1 room1 1
    = Some (Some {| code := "return a + b"; sub_language := "javascript";
                    submittedAt := 309800; testResults := five_tests 5;
                    score := 100; sub_status := sub_completed |},
            "return a + b"%string).
Proof. vm_compute. by split_and!. Qed.

(** C5.  In a running battle, a participant's submission sent when the
    elapsed time has gone over the time limit, that is when less than
    nothing remains, is refused with the message that the battle time is
    up, and the whole stored state, the submission state included, stays
    as it was; while something or exactly nothing remains, the submission
    is not refused for the time. *)
Theorem submit_over_limit_rejected (sock : Socket) (rid c lang : string)
    (now later : Z) (oracle : option (list TestResult)) (w : World)
    (room : Room) (t0 : Z) :
  rooms w !! rid = Some room ->
  isParticipant room (userId sock) = true ->
  status room = in_progress ->
  startedAt (battle room) = Some t0 ->
  let out := battle_submit sock rid c lang now oracle later w in
  (remaining room t0 now < 0 ->
   out = (w, [ev_error "Battle time is up"]) /\
   submission_state out.1 rid (userId sock)
     = submission_state w rid (userId sock)) /\
  (0 <= remaining room t0 now ->
   head out.2 = Some ev_submission_processing).
Proof.
  intros Hroom Hpart Hst Ht0 out. subst out. unfold battle_submit.
  rewrite Hroom, Hpart, Hst, bool_decide_eq_true_2 by done. cbn [negb].
  pose proof (time_is_up_iff room t0 now Ht0) as Hup.
  destruct (time_is_up room now).
  - split; [done|]. intros Hrem.
    assert (remaining room t0 now < 0) by by apply Hup. lia.
  - split.
    + intros Hrem. apply Hup in Hrem. done.
    + intros _. by destruct oracle as [[|]|].
Qed.

End Submit.

(** ** The grace timer and the time limit *)

Section GraceTimer.
Import RoomModel BattleHandlers Samples.

(** A number divided by itself is the double 1, and 1 * 100 is the double
    100. *)
Lemma nearest_double_same (n : Z) : 0 < n -> nearest_double n n = (2 ^ 52, -52).
Proof.
  intros Hn. unfold nearest_double. rewrite Z.sub_diag.
  change (scaled n n 0) with (n, n * 2 ^ 0).
  rewrite Z.pow_0_r, Z.mul_1_r, Z.leb_refl.
  change (scaled n n (0 - 52)) with (n * 2 ^ 52, n).
  rewrite (Z.mul_comm n), Z.div_mul, Z.mod_mul by lia.
  destruct (Z.ltb_spec (2 * 0) n); [|lia].
  reflexivity.
Qed.

Lemma score_of_all (n : Z) : 0 < n -> score_of n n = 100.
Proof.
  intros Hn. unfold score_of.
  destruct (Z.leb_spec n 0); [lia|].
  rewrite nearest_double_same by done. by vm_compute.
Qed.

Lemma count_passed_all (tr : list TestResult) :
  forallb passed tr = true -> count_passed tr = Z.of_nat (length tr).
Proof.
  unfold count_passed. induction tr as [|x tr IH]; simpl; [done|].
  intros [Hx Htr]%andb_true_iff. rewrite Hx. simpl. specialize (IH Htr). lia.
Qed.

Lemma update_first_users uid f ps :
  (forall p, p_user (f p) = p_user p) ->
  map p_user (update_first uid f ps) = map p_user ps.
Proof.
  intros Hf. induction ps as [|p ps IH]; simpl; [done|].
  destruct (p_user p =? uid)%nat; simpl; [by rewrite Hf|by rewrite IH].
Qed.

(** Against C3 as it stands: in a five-minute battle started at 9 s, a
    perfect submission evaluated at 303.8 s arms the grace timer for
    313.8 s; when the time limit is reached at 309 s nothing happens and the
    room is still in progress; the battle ends at 313.8 s. *)
Lemma battle_outlives_time_limit :
  let w1 := submit alice 5 303000 arena in
  timers w1 = [{| fireAt := 313800; action := end_battle_timer room1 |}] /\
  remaining_in w1 room1 309000 = Some 0 /\
  Timers.advance 309000 w1 = (w1, []) /\
  room_status w1 room1 = Some in_progress /\
  room_status (Timers.advance 313800 w1).1 room1 = Some completed /\
  room_ended_at (Timers.advance 313800 w1).1 room1 = Some (Some 313800).
Proof. vm_compute. by split_and!. Qed.

(** Nothing runs while no pending timer has expired. *)
Lemma advance_idle (t : Z) (w : World) :
  Forall (fun tm => t < fireAt tm) (timers w) -> Timers.advance t w = (w, []).
Proof.
  unfold Timers.advance. intros Hall.
  destruct (timers w) as [|tm ts] eqn:E; [done|]. simpl. rewrite E.
  assert (Hnext : forall ts', Forall (fun tm => t < fireAt tm) ts' ->
            match Timers.earliest ts' with
            | Some (tm', _) => t < fireAt tm'
            | None => True
            end).
  { induction ts' as [|a ts' IH]; [done|]. intros [Ha Hts]%Forall_cons.
    simpl. specialize (IH Hts).
    destruct (Timers.earliest ts') as [[t' rest]|]; [|done].
    by destruct (fireAt t' <? fireAt a). }
  specialize (Hnext _ Hall).
  destruct (Timers.earliest (tm :: ts)) as [[t' rest]|]; [|done].
  destruct (Z.leb_spec (fireAt t') t); [lia|done].
Qed.

(** C3.  No timer is armed for the time limit.  After a perfect submission
    that is evaluated at least a minute into a running battle with no other
    timer pending, the only pending timer is the grace timer, due ten
    seconds after the evaluation: until then the room stays in progress
    however much of the time limit has gone by, and when it fires the
    battle ends, at that moment. *)
Theorem grace_timer_alone_ends_battle (sock : Socket) (rid c lang : string)
    (now later t : Z) (tr : list TestResult) (w : World) (room : Room)
    (t0 : Z) :
  rooms w !! rid = Some room ->
  isParticipant room (userId sock) = true ->
  status room = in_progress ->
  startedAt (battle room) = Some t0 ->
  is_Some (problem room) ->
  Forall (fun p => is_Some (users w !! p_user p)) (participants room) ->
  timers w = [] ->
  0 <= remaining room t0 now ->
  tr <> [] -> forallb passed tr = true ->
  60000 <= later - t0 ->
  let w1 := (battle_submit sock rid c lang now (Some tr) later w).1 in
  timers w1 = [{| fireAt := later + 10000; action := end_battle_timer rid |}] /\
  room_status w1 rid = Some in_progress /\
  (t < later + 10000 -> Timers.advance t w1 = (w1, [])) /\
  (later + 10000 <= t ->
   room_status (Timers.advance t w1).1 rid = Some completed /\
   room_ended_at (Timers.advance t w1).1 rid = Some (Some (later + 10000)) /\
   timers (Timers.advance t w1).1 = []).
Proof.
  intros Hroom Hpart Hst Ht0 [pid Hpid] Hus Htimers Hrem Hne Hok Hlate w1.
  assert (Hup : time_is_up room now = false).
  { apply not_true_is_false. rewrite (time_is_up_iff room t0 now Ht0). lia. }
  set (sc := score_of (count_passed tr) (Z.of_nat (length tr))).
  assert (Hsc : sc = 100).
  { subst sc. rewrite count_passed_all by done. apply score_of_all.
    destruct tr; [done|simpl; lia]. }
  set (room' := set_participants room
                  (update_first (userId sock)
                     (record_submission c lang later tr sc) (participants room))).
  assert (Hw1 : w1 = setTimeout (save_room w rid room') later 10000
                       (end_battle_timer rid)).
  { subst w1. unfold battle_submit.
    rewrite Hroom, Hpart, Hst, bool_decide_eq_true_2, Hup by done. cbn [negb].
    destruct tr as [|x tr']; [done|].
    fold sc. fold room'. unfold grace_due.
    replace (startedAt (battle room')) with (Some t0) by (symmetry; exact Ht0).
    rewrite Hsc. simpl (100 =? 100).
    destruct (Z.geb_spec (later - t0) (1 * 60 * 1000)); [done|lia]. }
  assert (Hlook : rooms w1 !! rid = Some room')
    by (rewrite Hw1; simpl; apply lookup_insert_eq).
  assert (Htm : timers w1 =
                  [{| fireAt := later + 10000; action := end_battle_timer rid |}])
    by (rewrite Hw1; simpl; by rewrite Htimers).
  split_and!.
  - exact Htm.
  - unfold room_status. rewrite Hlook. simpl. by rewrite Hst.
  - intros Hlt. apply advance_idle. rewrite Htm. constructor; [simpl; lia|done].
  - intros Hge. unfold Timers.advance. rewrite Htm. simpl. rewrite Htm. simpl.
    destruct (Z.leb_spec (later + 10000) t); [|lia].
    unfold Timers.fire. simpl.
    set (w2 := with_timers w1 []).
    assert (Hus' : forall p, p ∈ participants room' ->
              is_Some (users w2 !! p_user p)).
    { intros p Hp. subst w2. rewrite Hw1. simpl.
      assert (Hin : p_user p ∈ map p_user (participants room'))
        by (apply list_elem_of_fmap; eauto).
      subst room'. simpl in Hin. rewrite update_first_users in Hin by done.
      apply list_elem_of_fmap in Hin as (q & -> & Hq).
      rewrite Forall_forall in Hus. by apply Hus. }
    destruct (endBattle_settles rid (later + 10000) w2 room' t0 pid)
      as (m & Hrooms & _ & Htimers2 & _); [done..|].
    destruct (endBattle rid (later + 10000) w2) as [w3 e3]. simpl in *.
    unfold room_status, room_ended_at. rewrite Hrooms, lookup_insert_eq.
    by split_and!.
Qed.

End GraceTimer.

(** ** Ratings *)

Section Ratings.
Import RoomModel BattleHandlers UserModel Samples.

Lemma rank_of_rating_tiers (r : Z) :
  (rank_of_rating r = Bronze <-> r < 1300) /\
  (rank_of_rating r = Silver <-> 1300 <= r < 1500) /\
  (rank_of_rating r = Gold <-> 1500 <= r < 1700) /\
  (rank_of_rating r = Platinum <-> 1700 <= r < 1900) /\
  (rank_of_rating r = Diamond <-> 1900 <= r < 2100) /\
  (rank_of_rating r = Master <-> 2100 <= r).
Proof.
  unfold rank_of_rating.
  destruct (Z.ltb_spec r 1300); [split_and!; split; (done || lia)|].
  destruct (Z.ltb_spec r 1500); [split_and!; split; (done || lia)|].
  destruct (Z.ltb_spec r 1700); [split_and!; split; (done || lia)|].
  destruct (Z.ltb_spec r 1900); [split_and!; split; (done || lia)|].
  destruct (Z.ltb_spec r 2100); split_and!; split; (done || lia).
Qed.

(** What [updateStats] does to the rating, by outcome. *)
Lemma updateStats_rating (u : User) (spent : Z) (d : Difficulty) :
  rating (statistics (updateStats u "win" spent d)) = rating (statistics u) + 25 /\
  rating (statistics (updateStats u "loss" spent d))
    = Z.max 800 (rating (statistics u) - 20) /\
  rating (statistics (updateStats u "draw" spent d)) = rating (statistics u) + 5.
Proof. done. Qed.

Lemma find_result (room : Room) (now : Z) (ps : list Participant) (p : Participant) :
  p ∈ ps ->
  exists r, List.find (fun r => Nat.eqb (r_user r) (p_user p))
                      (map (result_of room now) ps) = Some r.
Proof.
  induction ps as [|q ps IH]; intros Hp; [by apply elem_of_nil in Hp|].
  simpl. destruct (Nat.eqb_spec (p_user q) (p_user p)); [eauto|].
  apply elem_of_cons in Hp as [->|Hp]; [done|]. by apply IH.
Qed.

(** The statistics loop on distinct, existing users: it runs to its end,
    every participant is updated once, as winner or as loser, and saved
    with the tier of the new rating; nobody else is touched. *)
Lemma update_statistics_spec (room : Room) (res : list Result)
    (ps : list Participant) (us : gmap ObjectId User) :
  NoDup (map p_user ps) ->
  (forall p, p ∈ ps -> is_Some (us !! p_user p)) ->
  (forall p, p ∈ ps ->
     is_Some (List.find (fun r => Nat.eqb (r_user r) (p_user p)) res)) ->
  (update_statistics room res ps us).2 = true /\
  (forall id, id ∉ map p_user ps ->
     (update_statistics room res ps us).1 !! id = us !! id) /\
  (forall p u, p ∈ ps -> us !! p_user p = Some u ->
     exists u',
       (update_statistics room res ps us).1 !! p_user p = Some u' /\
       rating (statistics u')
         = settled_rating (winner (battle room)) (p_user p) (rating (statistics u)) /\
       draws (statistics u') = draws (statistics u) /\
       rank (statistics u') = rank_of_rating (rating (statistics u'))).
Proof.
  revert us. induction ps as [|p ps IH]; intros us Hnd Hus Hres.
  - simpl. split_and!; [done|done|]. intros p u Hp. by apply elem_of_nil in Hp.
  - simpl in Hnd. apply NoDup_cons in Hnd as [Hp Hnd].
    destruct (Hus p) as [u Hu]; [by left|].
    destruct (Hres p) as [r Hr]; [by left|].
    simpl. rewrite Hu, Hr.
    set (user' := pre_save (updateStats u _ (timeSpent r) (difficulty (settings room)))).
    set (us1 := <[p_user p := user']> us).
    destruct (IH us1) as (Hfin & Hother & Hupd); [done| |by intros; apply Hres; right|].
    { intros q Hq. subst us1.
      destruct (decide (p_user p = p_user q)) as [->|Hne].
      - rewrite lookup_insert_eq. eauto.
      - rewrite lookup_insert_ne by done. apply Hus. by right. }
    split_and!; [done| |].
    + intros id Hid. apply not_elem_of_cons in Hid as [Hid1 Hid2].
      rewrite Hother by done. subst us1. by rewrite lookup_insert_ne.
    + intros q v [->|Hq]%elem_of_cons Hv.
      * exists user'. rewrite Hother by done. subst us1.
        rewrite lookup_insert_eq. simplify_eq. split; [done|].
        subst user'. unfold settled_rating.
        destruct (winner (battle room)) as [wid|]; [|done].
        by destruct (wid =? p_user p)%nat.
      * apply Hupd; [done|]. subst us1. rewrite lookup_insert_ne; [done|].
        intros Heq. apply Hp. rewrite Heq.
        apply list_elem_of_fmap. eauto.
Qed.

(** Against C8 as it stands: alice and bob end a battle with the same top
    score; bob, recorded as winner, gains 25 and alice loses 20; neither gets
    the 5 of a draw, and carol, who did not play, keeps the same rating. *)
Lemma tie_is_rated_as_win_and_loss :
  let w1 := (endBattle room1 200000 arena_tie).1 in
  map recorded_ranks (matches w1) = [[(1%nat, 80, 1); (2%nat, 80, 2)]] /\
  (rating_of arena_tie 1, rating_of arena_tie 2) = (Some 1200, Some 1200) /\
  (rating_of w1 1, rating_of w1 2, rating_of w1 3)
    = (Some 1180, Some 1225, Some 1200).
Proof. vm_compute. by split_and!. Qed.

Lemma entries_cons (uid : ObjectId) (p : Participant) (ps : list Participant) :
  entries uid (p :: ps)
  = if Nat.eqb (p_user p) uid then S (entries uid ps) else entries uid ps.
Proof. unfold entries. simpl. by destruct (Nat.eqb (p_user p) uid). Qed.

Lemma entries_distinct (p : Participant) (ps : list Participant) :
  distinct_users ps -> p ∈ ps -> entries (p_user p) ps = 1%nat.
Proof.
  unfold distinct_users. induction ps as [|q ps IH]; intros Hnd Hp.
  - by apply elem_of_nil in Hp.
  - simpl in Hnd. apply NoDup_cons in Hnd as [Hq Hnd]. rewrite entries_cons.
    assert (Hzero : forall u, u ∉ map p_user ps -> entries u ps = 0%nat).
    { clear. intros u. unfold entries.
      induction ps as [|x ps IH]; [done|]. simpl.
      intros [Hx Hps]%not_elem_of_cons.
      destruct (Nat.eqb_spec (p_user x) u); [congruence|by apply IH]. }
    destruct (Nat.eqb_spec (p_user q) (p_user p)) as [Heq|Hneq].
    + rewrite Hzero; [done|]. by rewrite <- Heq.
    + apply IH; [done|]. apply elem_of_cons in Hp as [->|Hp]; [done|done].
Qed.

Lemma entries_pos (p : Participant) (ps : list Participant) :
  p ∈ ps -> (0 < entries (p_user p) ps)%nat.
Proof.
  induction ps as [|q ps IH]; intros Hp; [by apply elem_of_nil in Hp|].
  rewrite entries_cons.
  destruct (Nat.eqb_spec (p_user q) (p_user p)) as [Heq|Hneq]; [lia|].
  apply IH. apply elem_of_cons in Hp as [->|Hp]; [done|done].
Qed.

(** The loop over the participants adjusts a user once for each of the
    user's entries, in the order of the array. *)
Lemma update_statistics_entries (room : Room) (res : list Result)
    (ps : list Participant) (us : gmap ObjectId User) :
  (forall p, p ∈ ps -> is_Some (us !! p_user p)) ->
  (forall p, p ∈ ps ->
     is_Some (List.find (fun r => Nat.eqb (r_user r) (p_user p)) res)) ->
  (update_statistics room res ps us).2 = true /\
  forall id u, us !! id = Some u ->
    exists u',
      (update_statistics room res ps us).1 !! id = Some u' /\
      rating (statistics u')
        = Nat.iter (entries id ps) (settled_rating (winner (battle room)) id)
                   (rating (statistics u)) /\
      draws (statistics u') = draws (statistics u) /\
      ((0 < entries id ps)%nat ->
       rank (statistics u') = rank_of_rating (rating (statistics u'))) /\
      (entries id ps = 0%nat -> u' = u).
Proof.
  revert us. induction ps as [|p ps IH]; intros us Hus Hres.
  - simpl. split; [done|]. intros id u Hu. exists u.
    split_and!; try done. unfold entries. simpl. lia.
  - destruct (Hus p) as [v Hv]; [by left|].
    destruct (Hres p) as [r Hr]; [by left|].
    simpl. rewrite Hv, Hr.
    set (user' := pre_save (updateStats v _ (timeSpent r) (difficulty (settings room)))).
    set (us1 := <[p_user p := user']> us).
    assert (Hrating : rating (statistics user')
              = settled_rating (winner (battle room)) (p_user p)
                               (rating (statistics v))).
    { subst user'. unfold settled_rating.
      destruct (winner (battle room)) as [wid|]; [|done].
      by destruct (wid =? p_user p)%nat. }
    assert (Hdraws : draws (statistics user') = draws (statistics v)).
    { subst user'. destruct (winner (battle room)) as [wid|]; [|done].
      by destruct (wid =? p_user p)%nat. }
    assert (Hrank : rank (statistics user')
              = rank_of_rating (rating (statistics user'))) by done.
    destruct (IH us1) as (Hfin & Hupd).
    { intros q Hq. subst us1.
      destruct (decide (p_user p = p_user q)) as [->|Hne].
      - rewrite lookup_insert_eq. eauto.
      - rewrite lookup_insert_ne by done. apply Hus. by right. }
    { intros q Hq. apply Hres. by right. }
    split; [done|]. intros id u Hu. rewrite entries_cons.
    destruct (Nat.eqb_spec (p_user p) id) as [Heq|Hneq].
    + subst id. rewrite Hv in Hu. injection Hu as <-.
      destruct (Hupd (p_user p) user') as (u' & H1 & H2 & H3 & H4 & H5).
      { subst us1. apply lookup_insert_eq. }
      exists u'. split_and!.
      * done.
      * rewrite H2, Hrating. by rewrite Nat.iter_succ_r.
      * by rewrite H3.
      * intros _. destruct (entries (p_user p) ps) eqn:E.
        -- rewrite (H5 eq_refl). done.
        -- apply H4. lia.
      * done.
    + destruct (Hupd id u) as (u' & H1 & H2 & H3 & H4 & H5).
      { subst us1. by rewrite lookup_insert_ne. }
      exists u'. by split_and!.
Qed.

(** C8.  After the match is appended, every participant's rating is
    adjusted by the outcome the ending path reports for that participant,
    once for each entry the participant has in the room, that is once when
    the participants are distinct users: the recorded winner gains 25,
    every other participant is set to the larger of 800 and the rating less
    20, also when several share the top score, and no draw is counted;
    [updateStats] adds 5 when it is given a draw.  Each participant is saved
    with the tier of the new rating: Bronze below 1300, Silver below 1500,
    Gold below 1700, Platinum below 1900, Diamond below 2100, Master from
    2100. *)
Theorem endBattle_adjusts_ratings (rid : string) (now : Z) (w : World)
    (room : Room) :
  rooms w !! rid = Some room -> status room = in_progress ->
  is_Some (startedAt (battle room)) -> is_Some (problem room) ->
  Forall (fun p => is_Some (users w !! p_user p)) (participants room) ->
  let w1 := (endBattle rid now w).1 in
  (exists m,
     matches w1 = matches w ++ [m] /\
     forall p u, p ∈ participants room -> users w !! p_user p = Some u ->
       exists u',
         users w1 !! p_user p = Some u' /\
         rating (statistics u')
           = Nat.iter (entries (p_user p) (participants room))
               (settled_rating (recorded_winner m) (p_user p))
               (rating (statistics u)) /\
         (distinct_users (participants room) ->
          rating (statistics u')
            = settled_rating (recorded_winner m) (p_user p)
                             (rating (statistics u))) /\
         draws (statistics u') = draws (statistics u) /\
         rank (statistics u') = rank_of_rating (rating (statistics u'))) /\
  (forall u spent d,
     rating (statistics (updateStats u "draw" spent d)) = rating (statistics u) + 5) /\
  (forall r,
     (rank_of_rating r = Bronze <-> r < 1300) /\
     (rank_of_rating r = Silver <-> 1300 <= r < 1500) /\
     (rank_of_rating r = Gold <-> 1500 <= r < 1700) /\
     (rank_of_rating r = Platinum <-> 1700 <= r < 1900) /\
     (rank_of_rating r = Diamond <-> 1900 <= r < 2100) /\
     (rank_of_rating r = Master <-> 2100 <= r)).
Proof.
  intros Hroom Hst [t0 Ht0] [pid Hpid] Hus w1.
  rewrite Forall_forall in Hus.
  split_and!; [|done|apply rank_of_rating_tiers].
  destruct (endBattle_settles rid now w room t0 pid Hroom Hst Ht0 Hpid Hus)
    as (m & _ & Hmatches & _ & Husers & _ & Hwin & _).
  fold w1 in Hmatches, Husers.
  exists m. split; [done|]. intros p u Hp Hu.
  rewrite Husers. unfold recorded_winner. rewrite Hwin.
  set (res := map (result_of room now) (participants room)) in *.
  set (room1 := RoomModel.endBattle room res now) in *.
  destruct (update_statistics_entries room1 res (participants room) (users w))
    as (_ & Hupd); [done| |].
  { intros q Hq. destruct (find_result room now _ q Hq) as [r Hr]. eauto. }
  destruct (Hupd (p_user p) u Hu) as (u' & H1 & H2 & H3 & H4 & _).
  exists u'. split_and!; [done|done| |done|].
  - intros Hnd. rewrite H2, (entries_distinct p) by done. done.
  - apply H4. by apply entries_pos.
Qed.

End Ratings.

(** ** Capacity *)

Section Capacity.
Import RoomModel RoomHandlers Samples.

Lemma isFull_spec (r : Room) :
  isFull r = true <-> maxParticipants (settings r) <= participantCount r.
Proof. unfold isFull. apply Z.leb_le. Qed.

(** Adding to a full room fails and changes nothing; adding otherwise
    keeps the room within its capacity. *)
Lemma addParticipant_within_capacity (r : Room) (uid : ObjectId) (now : Z) :
  (isFull r = true -> addParticipant r uid now = (false, r)) /\
  (within_capacity r -> within_capacity (addParticipant r uid now).2).
Proof.
  unfold addParticipant, within_capacity. split.
  - by intros ->.
  - destruct (isFull r) eqn:Hfull; [done|].
    destruct (isParticipant r uid); [done|]. simpl. intros _.
    apply not_true_iff_false in Hfull. rewrite isFull_spec in Hfull.
    unfold participantCount in *. simpl. rewrite length_app. simpl. lia.
Qed.

Lemma addParticipant_populated_within_capacity (present : ObjectId -> bool)
    (r : Room) (uid : ObjectId) (now : Z) (ok : bool) (r' : Room) :
  addParticipant_populated present r uid now = Some (ok, r') ->
  within_capacity r -> within_capacity r'.
Proof.
  unfold addParticipant_populated, within_capacity.
  destruct (isFull r) eqn:Hfull; [by intros [= _ <-]|].
  destruct (isParticipant_populated present r uid) as [[|]|];
    [by intros [= _ <-]| |done].
  intros [= _ <-] _.
  apply not_true_iff_false in Hfull. rewrite isFull_spec in Hfull.
  unfold participantCount in *. simpl. rewrite length_app. simpl. lia.
Qed.

Lemma removeParticipant_within_capacity (r : Room) (uid : ObjectId) :
  within_capacity r -> within_capacity (removeParticipant r uid).
Proof.
  unfold within_capacity, removeParticipant, participantCount. simpl.
  pose proof (filter_length_le (fun p => negb (p_user p =? uid)%nat)
                               (participants r)).
  lia.
Qed.

Lemma save_room_within_capacity (w : World) (rid : string) (r : Room) :
  all_within_capacity w -> within_capacity r ->
  all_within_capacity (save_room w rid r).
Proof.
  intros Hw Hr rid' r'. unfold save_room. simpl.
  destruct (decide (rid = rid')) as [->|Hne].
  - rewrite lookup_insert_eq. by intros [= <-].
  - rewrite lookup_insert_ne by done. apply Hw.
Qed.

Lemma delete_room_within_capacity (w : World) (rid : string) :
  all_within_capacity w ->
  all_within_capacity (with_rooms w (delete rid (rooms w))).
Proof.
  intros Hw rid' r'. simpl. intros Hr.
  apply lookup_delete_Some in Hr as [_ Hr]. by eapply Hw.
Qed.

(** Creating, joining and leaving keep every stored room within its
    capacity. *)
Lemma create_join_leave_within_capacity (sock : Socket) (rid nm : string)
    (si : SettingsInput) (priv : bool) (pw : option string) (now : Z)
    (w : World) :
  all_within_capacity w ->
  all_within_capacity (room_create sock rid nm si priv pw now w).1 /\
  all_within_capacity (room_join sock rid pw now w).1 /\
  all_within_capacity (rest_join (userId sock) rid pw now w).1 /\
  all_within_capacity (room_leave sock rid now w).1 /\
  all_within_capacity (rest_leave (userId sock) rid w).1.
Proof.
  intros Hw. split_and!.
  - unfold room_create.
    set (r0 := new_room rid nm (userId sock) si priv pw).
    destruct (valid_name nm && valid_settings (settings (addParticipant r0 (userId sock) now).2)
              && bool_decide (rooms w !! rid = None)) eqn:Hok; [|done].
    simpl. apply save_room_within_capacity; [done|].
    apply andb_true_iff in Hok as [[_ Hset]%andb_true_iff _].
    unfold addParticipant in *.
    destruct (isFull r0 || isParticipant r0 (userId sock)); simpl in *.
    + unfold valid_settings in Hset. unfold within_capacity, participantCount.
      simpl in *. lia.
    + unfold valid_settings in Hset. unfold within_capacity, participantCount.
      simpl in *. lia.
  - unfold room_join. destruct (rooms w !! rid) as [room|] eqn:Hroom; [|done].
    destruct (isFull room); [done|].
    destruct (isParticipant_populated _ _ _) as [[|]|]; try done.
    destruct (wrong_password room pw); [done|].
    destruct (bool_decide _); [done|].
    destruct (addParticipant_populated _ _ _ _) as [[ok room1]|] eqn:Hadd;
      [|done].
    simpl. apply save_room_within_capacity; [done|].
    change (within_capacity room1).
    eapply addParticipant_populated_within_capacity; [exact Hadd|by eapply Hw].
  - unfold rest_join. destruct (rooms w !! rid) as [room|] eqn:Hroom; [|done].
    destruct (isFull room); [done|].
    destruct (isParticipant_populated _ _ _) as [[|]|]; try done.
    destruct (wrong_password room pw); [done|].
    destruct (bool_decide _); [done|].
    destruct (addParticipant_populated _ _ _ _) as [[ok room1]|] eqn:Hadd;
      [|done].
    simpl. apply save_room_within_capacity; [done|].
    eapply addParticipant_populated_within_capacity; [exact Hadd|by eapply Hw].
  - unfold room_leave. destruct (rooms w !! rid) as [room|] eqn:Hroom; [|done].
    case_match; [done|].
    assert (Hr : within_capacity (removeParticipant room (userId sock)))
      by (apply removeParticipant_within_capacity; by eapply Hw).
    case_match; [by apply delete_room_within_capacity|].
    case_match; simpl; by apply save_room_within_capacity.
  - unfold rest_leave. destruct (rooms w !! rid) as [room|] eqn:Hroom; [|done].
    case_match; [done|].
    assert (Hr : within_capacity (removeParticipant room (userId sock)))
      by (apply removeParticipant_within_capacity; by eapply Hw).
    case_match; [by apply delete_room_within_capacity|].
    case_match; simpl; by apply save_room_within_capacity.
Qed.

(** C6.  In a full waiting room of three with three seats, the host's
    settings update to two seats is accepted, by the socket event and by the
    REST route alike: the stored room then has three participants and two
    seats, one less than none free. *)
Theorem update_settings_below_participant_count :
  let out := room_update_settings alice room1 shrink_to_two lobby_full in
  let out' := rest_update_settings 1 room1 shrink_to_two lobby_full in
  room_status lobby_full room1 = Some waiting /\
  seats lobby_full room1 = Some (3, 3, 0) /\
  all_within_capacity lobby_full /\
  seats out.1 room1 = Some (3, 2, -1) /\
  seats out'.1 room1 = Some (3, 2, -1) /\
  ~ all_within_capacity out.1.
Proof.
split_and!; try (vm_compute; done).
- assert (H0 : all_within_capacity empty_world)
    by (intros rid r Hr; simpl in Hr; by rewrite lookup_empty in Hr).
  pose proof (proj1 (create_join_leave_within_capacity alice room1 "friday"
                       three_seats false None 1000 _ H0)) as H1.
  pose proof (proj1 (proj2 (create_join_leave_within_capacity bob room1 ""
                              three_seats false None 2000 _ H1))) as H2.
  exact (proj1 (proj2 (create_join_leave_within_capacity carol room1 ""
                         three_seats false None 2500 _ H2))).
- intros H. specialize (H room1 _ eq_refl). by vm_compute in H.
Qed.

End Capacity.

(** ** Readiness *)

Section Readiness.
Import RoomModel RoomHandlers Samples.

Lemma allParticipantsReady_spec (r : Room) :
  allParticipantsReady r = true <-> quorum r.
Proof.
  unfold allParticipantsReady, quorum, participantCount.
  rewrite andb_true_iff, Z.leb_le, forallb_forall, Forall_forall.
  split; intros [Hn Hall]; (split; [lia|]); intros p Hp; apply Hall;
    by apply list_elem_of_In.
Qed.

Lemma isParticipant_find (r : Room) (uid : ObjectId) :
  isParticipant r uid = true ->
  is_Some (List.find (fun p => Nat.eqb (p_user p) uid) (participants r)).
Proof.
  unfold isParticipant. induction (participants r) as [|p ps IH]; [done|].
  simpl. destruct (p_user p =? uid)%nat; [eauto|]. exact IH.
Qed.

(** On a populated room [isParticipant] never answers yes. *)
Lemma isParticipant_populated_never (present : ObjectId -> bool) (r : Room)
    (uid : ObjectId) :
  isParticipant_populated present r uid <> Some true.
Proof. unfold isParticipant_populated. by case_match. Qed.

(** The ready toggle changes nothing and answers with an error. *)
Lemma room_toggle_ready_refused (sock : Socket) (rid : string) (now : Z)
    (w : World) :
  (room_toggle_ready sock rid now w).1 = w /\
  exists msg, (room_toggle_ready sock rid now w).2 = [ev_error msg].
Proof.
unfold room_toggle_ready.
destruct (rooms w !! rid) as [room|]; [|by eauto].
pose proof (isParticipant_populated_never (user_exists w) room (userId sock)).
destruct (isParticipant_populated (user_exists w) room (userId sock))
  as [[|]|]; [done|by eauto|by eauto].
Qed.


End Readiness.

(** ** Invariants of the rooms the handlers build *)

Section Reachable.
Import RoomModel BattleHandlers RoomHandlers.

Lemma room_ok_later (T T' : Z) (r : Room) : T <= T' -> room_ok T r -> room_ok T' r.
Proof.
intros HT (Hord & Hle & Hst). split_and!; [done| |done].
eapply Forall_impl; [exact Hle|]. simpl. intros p Hp. lia.
Qed.

Lemma all_ok_later (T T' : Z) (w : World) : T <= T' -> all_ok T w -> all_ok T' w.
Proof. intros HT Hw rid r Hr. eapply room_ok_later; [done|]. by eapply Hw. Qed.

Lemma all_ok_save (T : Z) (w : World) (rid : string) (r : Room) :
  all_ok T w -> room_ok T r -> all_ok T (save_room w rid r).
Proof.
intros Hw Hr rid' r'. unfold save_room. simpl.
destruct (decide (rid = rid')) as [->|Hne].
- rewrite lookup_insert_eq. by intros [= <-].
- rewrite lookup_insert_ne by done. apply Hw.
Qed.

Lemma all_ok_delete (T : Z) (w : World) (rid : string) :
  all_ok T w -> all_ok T (with_rooms w (delete rid (rooms w))).
Proof.
intros Hw rid' r'. simpl. intros Hr.
apply lookup_delete_Some in Hr as [_ Hr]. by eapply Hw.
Qed.

Lemma all_ok_rooms (T : Z) (w w' : World) :
  rooms w' = rooms w -> all_ok T w -> all_ok T w'.
Proof. intros Heq Hw rid r. rewrite Heq. apply Hw. Qed.

(** The room methods keep a room well formed. *)
Lemma room_ok_addParticipant (T : Z) (r : Room) (uid : ObjectId) :
  room_ok T r -> room_ok T (addParticipant r uid T).2.
Proof.
intros (Hord & Hle & Hst). split_and!.
- by apply addParticipant_join_ordered.
- unfold addParticipant. destruct (isFull r || isParticipant r uid); [done|].
  simpl. apply Forall_app. split; [done|]. constructor; [simpl; lia|done].
- unfold addParticipant. by destruct (isFull r || isParticipant r uid).
Qed.

Lemma room_ok_addParticipant_populated (T : Z) (present : ObjectId -> bool)
    (r : Room) (uid : ObjectId) (ok : bool) (r' : Room) :
  addParticipant_populated present r uid T = Some (ok, r') ->
  room_ok T r -> room_ok T r'.
Proof.
unfold addParticipant_populated. intros Hadd (Hord & Hle & Hst).
destruct (isFull r); [by injection Hadd as _ <-|].
destruct (isParticipant_populated present r uid) as [[|]|];
  [by injection Hadd as _ <-| |done].
injection Hadd as _ <-. split_and!.
- simpl. by apply join_ordered_snoc.
- simpl. apply Forall_app. split; [done|]. constructor; [simpl; lia|done].
- exact Hst.
Qed.

Lemma room_ok_removeParticipant (T : Z) (r : Room) (uid : ObjectId) :
  room_ok T r -> room_ok T (removeParticipant r uid).
Proof.
intros (Hord & Hle & Hst). split_and!.
- unfold removeParticipant. simpl. by apply join_ordered_filter.
- unfold removeParticipant. simpl. rewrite Forall_forall in *.
  intros p Hp. apply Hle. apply list_elem_of_In, filter_In in Hp as [Hp _].
  by apply list_elem_of_In.
- exact Hst.
Qed.

Lemma update_first_joinedAt uid f ps :
  (forall p, joinedAt (f p) = joinedAt p) ->
  map joinedAt (update_first uid f ps) = map joinedAt ps.
Proof.
intros Hf. induction ps as [|p ps IH]; simpl; [done|].
destruct (p_user p =? uid)%nat; simpl; [by rewrite Hf|by rewrite IH].
Qed.

Lemma join_ordered_map (ps qs : list Participant) :
  map joinedAt ps = map joinedAt qs -> join_ordered qs -> join_ordered ps.
Proof.
intros Heq Hqs i j p q Hij Hp Hq.
assert (Hi : map joinedAt qs !! i = Some (joinedAt p))
  by (rewrite <- Heq, list_lookup_fmap, Hp; done).
assert (Hj : map joinedAt qs !! j = Some (joinedAt q))
  by (rewrite <- Heq, list_lookup_fmap, Hq; done).
rewrite list_lookup_fmap in Hi, Hj.
destruct (qs !! i) as [p'|] eqn:Ei; [|done].
destruct (qs !! j) as [q'|] eqn:Ej; [|done].
simpl in Hi, Hj. injection Hi as <-. injection Hj as <-. by eapply Hqs.
Qed.

Lemma Forall_update_first (P : Participant -> Prop) uid f ps :
  (forall p, P p -> P (f p)) -> Forall P ps -> Forall P (update_first uid f ps).
Proof.
intros Hf. induction 1 as [|p ps Hp Hps IH]; simpl; [done|].
destruct (p_user p =? uid)%nat; constructor; auto.
Qed.

Lemma room_ok_update_first (T : Z) (r : Room) (uid : ObjectId)
    (f : Participant -> Participant) :
  (forall p, p_user (f p) = p_user p) -> (forall p, joinedAt (f p) = joinedAt p) ->
  room_ok T r -> room_ok T (set_participants r (update_first uid f (participants r))).
Proof.
intros Hu Hj (Hord & Hle & Hst). split_and!.
- simpl. eapply join_ordered_map; [|exact Hord]. by apply update_first_joinedAt.
- simpl. apply Forall_update_first; [|done]. intros p. by rewrite Hj.
- exact Hst.
Qed.

Lemma Forall_joinedAt (T : Z) (ps : list Participant) :
  Forall (fun p => joinedAt p <= T) ps <->
  Forall (fun t => t <= T) (map joinedAt ps).
Proof.
induction ps as [|p ps IH]; simpl; [split; constructor|].
rewrite !Forall_cons. by rewrite IH.
Qed.

Lemma room_ok_same (T : Z) (r r' : Room) :
  participants r' = participants r ->
  (status r' = in_progress ->
   is_Some (startedAt (battle r')) /\ is_Some (problem r')) ->
  room_ok T r -> room_ok T r'.
Proof.
intros Hps Hst' (Hord & Hle & Hst). unfold room_ok. by rewrite Hps.
Qed.

(** The rooms after the ending path: the same, or the room saved as
    completed. *)
Lemma endBattle_rooms (rid : string) (now : Z) (w : World) :
  rooms (endBattle rid now w).1 = rooms w \/
  exists room,
    rooms w !! rid = Some room /\
    rooms (endBattle rid now w).1
      = <[rid := RoomModel.endBattle room
                   (map (result_of room now) (participants room)) now]> (rooms w).
Proof.
unfold endBattle. destruct (rooms w !! rid) as [room|] eqn:Hroom; [|by left].
repeat (case_match; try (by left)); right; exists room; by split.
Qed.

Lemma endBattle_all_ok (T : Z) (rid : string) (now : Z) (w : World) :
  all_ok T w -> all_ok T (endBattle rid now w).1.
Proof.
intros Hw. destruct (endBattle_rooms rid now w) as [Heq|(room & Hroom & Heq)].
- by eapply all_ok_rooms.
- eapply (all_ok_rooms T (save_room w rid _) _); [exact Heq|].
  apply all_ok_save; [done|].
  eapply room_ok_same; [| |by eapply Hw]; [done|done].
Qed.

Lemma auto_start_all_ok (T : Z) (rid : string) (now : Z) (w : World) :
  all_ok T w -> all_ok T (auto_start rid now w).1.
Proof.
intros Hw. unfold auto_start.
destruct (rooms w !! rid) as [room|] eqn:Hroom; [|done].
repeat (case_match; try done). simpl.
apply all_ok_save; [done|].
destruct (Hw rid room Hroom) as (Hord & Hle & Hst).
unfold startBattle. case_match; simpl.
- split_and!; [done..|]. simpl. intros Hs. split; [by apply Hst|by eexists].
- split_and!; [done..|]. simpl. intros _. split; by eexists.
Qed.

Lemma fire_all_ok (T : Z) (tm : Timer) (w : World) :
  all_ok T w -> all_ok T (Timers.fire tm w).1.
Proof.
intros Hw. unfold Timers.fire.
destruct (action tm); [by apply endBattle_all_ok|by apply auto_start_all_ok].
Qed.

Lemma run_timers_all_ok (T : Z) (n : nat) (t : Z) (w : World) :
  all_ok T w -> all_ok T (Timers.run_timers n t w).1.
Proof.
revert w. induction n as [|n IH]; intros w Hw; [done|]. simpl.
destruct (Timers.earliest (timers w)) as [[tm rest]|]; [|done].
destruct (fireAt tm <=? t); [|done].
pose proof (fire_all_ok T tm (with_timers w rest) Hw) as Hfire.
destruct (Timers.fire tm (with_timers w rest)) as [w1 e1].
specialize (IH w1 Hfire).
by destruct (Timers.run_timers n t w1) as [w2 e2].
Qed.

(** Every handler keeps every stored room well formed. *)
Lemma step_all_ok (T now : Z) (w w' : World) :
  all_ok T w -> T <= now -> step now w w' -> all_ok now w'.
Proof.
intros Hw0 HT Hstep.
assert (Hw : all_ok now w) by by eapply all_ok_later.
clear Hw0 HT.
destruct Hstep.
- unfold room_create. case_match; [|done]. simpl.
  apply all_ok_save; [done|]. apply room_ok_addParticipant.
  split_and!; [|by constructor|done].
  intros i j p q _ Hp. simpl in Hp. by rewrite lookup_nil in Hp.
- unfold room_join. destruct (rooms w !! rid) as [room|] eqn:Hroom; [|done].
  destruct (isFull room); [done|].
  destruct (isParticipant_populated _ _ _) as [[|]|]; try done.
  destruct (wrong_password room pw); [done|].
  destruct (bool_decide _); [done|].
  destruct (addParticipant_populated _ _ _ _) as [[ok room1]|] eqn:Hadd;
    [|done].
  simpl. apply all_ok_save; [done|].
  assert (Hr : room_ok now room1).
  { eapply room_ok_addParticipant_populated; [exact Hadd|by eapply Hw]. }
  eapply room_ok_same; [| |exact Hr]; [done|apply Hr].
- unfold rest_join. destruct (rooms w !! rid) as [room|] eqn:Hroom; [|done].
  destruct (isFull room); [done|].
  destruct (isParticipant_populated _ _ _) as [[|]|]; try done.
  destruct (wrong_password room pw); [done|].
  destruct (bool_decide _); [done|].
  destruct (addParticipant_populated _ _ _ _) as [[ok room1]|] eqn:Hadd;
    [|done].
  simpl. apply all_ok_save; [done|].
  eapply room_ok_addParticipant_populated; [exact Hadd|by eapply Hw].
- unfold room_leave. destruct (rooms w !! rid) as [room|] eqn:Hroom; [|done].
  case_match; [done|].
  assert (Hr : room_ok now (removeParticipant room (userId sock)))
    by (apply room_ok_removeParticipant; by eapply Hw).
  case_match; [by apply all_ok_delete|].
  case_match; simpl; (apply all_ok_save; [done|]);
    (eapply room_ok_same; [| |exact Hr]; [done|apply Hr]).
- unfold rest_leave. destruct (rooms w !! rid) as [room|] eqn:Hroom; [|done].
  case_match; [done|].
  assert (Hr : room_ok now (removeParticipant room uid))
    by (apply room_ok_removeParticipant; by eapply Hw).
  case_match; [by apply all_ok_delete|].
  case_match; simpl; (apply all_ok_save; [done|]);
    (eapply room_ok_same; [| |exact Hr]; [done|apply Hr]).
- by rewrite (proj1 (room_toggle_ready_refused sock rid now w)).
- unfold room_update_settings.
  destruct (rooms w !! rid) as [room|] eqn:Hroom; [|done].
  repeat (case_match; try done). simpl. apply all_ok_save; [done|].
  eapply room_ok_same; [| |by eapply Hw]; [done|]. apply (Hw rid room Hroom).
- unfold rest_update_settings.
  destruct (rooms w !! rid) as [room|] eqn:Hroom; [|done].
  repeat (case_match; try done). simpl. apply all_ok_save; [done|].
  eapply room_ok_same; [| |by eapply Hw]; [done|]. apply (Hw rid room Hroom).
- unfold battle_submit.
  destruct (rooms w !! rid) as [room|] eqn:Hroom; [|done].
  repeat (case_match; try done); simpl;
    (eapply (all_ok_rooms now (save_room w rid _) _); [reflexivity|]);
    (apply all_ok_save; [done|]);
    (apply room_ok_update_first; [done|done|by eapply Hw]).
- unfold battle_force_end.
  destruct (rooms w !! rid) as [room|] eqn:Hroom; [|done].
  case_match; [done|]. by apply endBattle_all_ok.
- by apply run_timers_all_ok.
- apply all_ok_save; [done|].
  destruct H0 as (Hu & Hj & Hs & Hb & Hp).
  destruct (Hw rid room H) as (Hord & Hle & Hst).
  split_and!.
  + by eapply join_ordered_map.
  + apply Forall_joinedAt. rewrite Hj. by apply Forall_joinedAt.
  + rewrite Hs, Hb, Hp. exact Hst.
- by apply all_ok_delete.
- exact Hw.
Qed.

(** Every room of a reachable state is well formed. *)
Lemma reachable_all_ok (T : Z) (w : World) : reachable_at T w -> all_ok T w.
Proof.
induction 1 as [T w Hrooms _|T now w w' _ IH HT Hstep].
- intros rid r. by rewrite Hrooms, lookup_empty.
- by eapply step_all_ok.
Qed.

End Reachable.

(** ** The sample states *)

Section OnSamples.
Import RoomModel BattleHandlers RoomHandlers MatchModel Samples.

Lemma lobby_reachable (h g : Socket) : reachable_at 2000 (lobby_of h g).
Proof.
unfold lobby_of.
eapply (reachable_step 1000); [|lia|apply step_join].
eapply (reachable_step 0); [|lia|apply step_create].
by apply reachable_start.
Qed.

Lemma lobby_full_reachable : reachable_at 2500 lobby_full.
Proof.
unfold lobby_full.
eapply (reachable_step 2000); [apply lobby_reachable|lia|apply step_join].
Qed.

Lemma alice_twice_reachable : reachable_at 2000 alice_twice.
Proof. apply lobby_reachable. Qed.

(** The sample battle is a room in progress as the countdown leaves it:
    alice and bob, started at 9 s, with problem 7 and no timer pending. *)
Lemma arena_started :
  map p_user (participants (room_in arena)) = [1%nat; 2%nat] /\
  status (room_in arena) = in_progress /\
  startedAt (battle (room_in arena)) = Some 9000 /\
  problem (room_in arena) = Some 7%nat /\ timers arena = [].
Proof. vm_compute. by split_and!. Qed.

(** C1.  In a running room where alice, who joined first, scored 60 and
    bob scored 80, the ending path records and broadcasts rank 1 for the 60
    and rank 2 for the 80: ranks follow the participants array, not the
    scores.  [calculateRankings] of the match model, applied to the very
    match that was recorded, would rank the 80 first. *)
Theorem endBattle_ranks_60_before_80 :
  let out := endBattle room1 200000 arena_60_80 in
  room_status arena_60_80 room1 = Some in_progress /\
  map recorded_ranks (matches out.1) = [[(1%nat, 60, 1); (2%nat, 80, 2)]] /\
  map broadcast_ranks out.2 = [[(1%nat, 60, 1); (2%nat, 80, 2)]] /\
  map (fun m => recorded_ranks (calculateRankings m)) (matches out.1)
    = [[(1%nat, 60, 2); (2%nat, 80, 1)]].
Proof. vm_compute. by split_and!. Qed.

(** C4.  When both participants have the top score, the same time and the
    same number of submissions, the recorded winner is whoever stands last
    in the participants array: bob in the room alice opened, alice in the
    room bob opened; in both matches the winner carries rank 2. *)
Theorem endBattle_winner_is_last_top_scorer :
  let alice_first := endBattle room1 200000 arena_tie in
  let bob_first := endBattle room1 200000 arena_tie_swapped in
  map recorded_winner (matches alice_first.1) = [Some 2%nat] /\
  map recorded_ranks (matches alice_first.1) = [[(1%nat, 80, 1); (2%nat, 80, 2)]] /\
  map recorded_winner (matches bob_first.1) = [Some 1%nat] /\
  map recorded_ranks (matches bob_first.1) = [[(2%nat, 80, 1); (1%nat, 80, 2)]].
Proof. vm_compute. by split_and!. Qed.

(** Two perfect submissions arm two grace timers; both fire, and one match
    is recorded. *)
Example two_grace_timers_one_match :
  let w := submit bob 5 80000 (submit alice 5 70000 arena) in
  map fireAt (timers w) = [80800; 90800] /\
  length (matches (Timers.advance 100000 w).1) = 1%nat /\
  timers (Timers.advance 100000 w).1 = [].
Proof. vm_compute. by split_and!. Qed.

End OnSamples.

(** ** The properties in the states the server reaches *)

Section OnReachable.
Import RoomModel BattleHandlers RoomHandlers Samples.

(** In every state the handlers reach, leaving goes by join order. *)
Lemma leave_fifo_reachable (T : Z) (sock : Socket) (rid : string) (now : Z)
    (w : World) (room : Room) :
  reachable_at T w ->
  rooms w !! rid = Some room ->
  isParticipant room (userId sock) = true ->
  let remaining := participants (removeParticipant room (userId sock)) in
  let w1 := (room_leave sock rid now w).1 in
  let w2 := (rest_leave (userId sock) rid w).1 in
  (remaining <> [] ->
   exists room1 room2 p0,
     rooms w1 !! rid = Some room1 /\ rooms w2 !! rid = Some room2 /\
     participants room1 = remaining /\ participants room2 = remaining /\
     head remaining = Some p0 /\ p_user p0 <> userId sock /\
     (forall q, q ∈ remaining -> joinedAt p0 <= joinedAt q) /\
     host room1 = (if isHost room (userId sock) then p_user p0 else host room) /\
     host room2 = host room1) /\
  (remaining = [] -> rooms w1 !! rid = None /\ rooms w2 !! rid = None) /\
  (distinct_users (participants room) ->
   (2 <= length (participants room))%nat -> remaining <> []).
Proof.
intros Hreach Hroom Hpart.
destruct (reachable_all_ok T w Hreach rid room Hroom) as (Hord & _).
by apply leave_fifo.
Qed.

(** C9.  alice opens a room of three seats and then joins that same room:
    the join is accepted and alice is listed twice.  The room has two
    participants and alice is its host; when alice leaves, through the
    socket event or through the REST route, both entries go, nobody becomes
    host and the room is deleted. *)
Theorem leave_of_host_listed_twice_destroys_room :
  let opened :=
    (room_create alice room1 "friday" three_seats false None 1000
       empty_world).1 in
  let joined := room_join alice room1 None 2000 opened in
  let left := room_leave alice room1 5000 alice_twice in
  joined.1 = alice_twice /\
  joined.2 = [ev_room_joined room1; ev_room_user_joined 1; ev_room_updated room1] /\
  map (fun p => (p_user p, joinedAt p)) (participants (room_in alice_twice))
    = [(1%nat, 1000); (1%nat, 2000)] /\
  host (room_in alice_twice) = 1%nat /\
  seats alice_twice room1 = Some (2, 3, 1) /\
  rooms left.1 !! room1 = None /\
  left.2 = [ev_room_deleted room1; ev_room_left room1; ev_room_user_left 1] /\
  rooms (rest_leave 1 room1 alice_twice).1 !! room1 = None.
Proof. vm_compute. by split_and!. Qed.

Lemma endBattle_twice_one_match_witness :
  let w1 := (endBattle room1 200000 arena_60_80).1 in
  (rooms arena_60_80 !! room1 = Some (room_in arena_60_80) /\
   status (room_in arena_60_80) = in_progress) /\
  length (matches w1) = 1%nat /\
  endBattle room1 230000 w1 = (w1, []).
Proof.
assert (Hroom : rooms arena_60_80 !! room1 = Some (room_in arena_60_80))
  by (vm_compute; reflexivity).
assert (Hst : status (room_in arena_60_80) = in_progress) by (vm_compute; reflexivity).
assert (Ht0 : is_Some (startedAt (battle (room_in arena_60_80))))
  by (vm_compute; by eexists).
assert (Hpid : is_Some (problem (room_in arena_60_80)))
  by (vm_compute; by eexists).
assert (Hus : Forall (fun p => is_Some (users arena_60_80 !! p_user p))
                     (participants (room_in arena_60_80)))
  by (vm_compute; repeat constructor; by eexists).
destruct (endBattle_twice_one_match room1 200000 230000 arena_60_80
            (room_in arena_60_80) alice Hroom Hst Ht0 Hpid Hus)
  as (Hlen & _ & Hsecond & _).
split; [by split|]. split; [exact Hlen|exact Hsecond].
Defined.

Lemma endBattle_adjusts_ratings_witness :
  let w1 := (endBattle room1 200000 arena_60_80).1 in
  (rooms arena_60_80 !! room1 = Some (room_in arena_60_80) /\
   status (room_in arena_60_80) = in_progress) /\
  exists m,
    matches w1 = matches arena_60_80 ++ [m] /\
    forall p u, p ∈ participants (room_in arena_60_80) ->
      users arena_60_80 !! p_user p = Some u ->
      exists u',
        users w1 !! p_user p = Some u' /\
        rating (statistics u')
          = Nat.iter (entries (p_user p) (participants (room_in arena_60_80)))
              (settled_rating (recorded_winner m) (p_user p))
              (rating (statistics u)) /\
        (distinct_users (participants (room_in arena_60_80)) ->
         rating (statistics u')
           = settled_rating (recorded_winner m) (p_user p)
                            (rating (statistics u))) /\
        draws (statistics u') = draws (statistics u) /\
        rank (statistics u') = UserModel.rank_of_rating (rating (statistics u')).
Proof.
assert (Hroom : rooms arena_60_80 !! room1 = Some (room_in arena_60_80))
  by (vm_compute; reflexivity).
assert (Hst : status (room_in arena_60_80) = in_progress) by (vm_compute; reflexivity).
assert (Ht0 : is_Some (startedAt (battle (room_in arena_60_80))))
  by (vm_compute; by eexists).
assert (Hpid : is_Some (problem (room_in arena_60_80)))
  by (vm_compute; by eexists).
assert (Hus : Forall (fun p => is_Some (users arena_60_80 !! p_user p))
                     (participants (room_in arena_60_80)))
  by (vm_compute; repeat constructor; by eexists).
split; [by split|].
exact (proj1 (endBattle_adjusts_ratings room1 200000 arena_60_80
                (room_in arena_60_80) Hroom Hst Ht0 Hpid Hus)).
Defined.

Lemma grace_timer_alone_ends_battle_witness :
  let w1 := (battle_submit alice room1 "return a + b" "javascript" 303000
               (Some (five_tests 5)) 303800 arena).1 in
  (rooms arena !! room1 = Some (room_in arena) /\
   isParticipant (room_in arena) 1 = true /\
   status (room_in arena) = in_progress /\
   startedAt (battle (room_in arena)) = Some 9000 /\ timers arena = [] /\
   0 <= remaining (room_in arena) 9000 303000 /\
   forallb passed (five_tests 5) = true /\ 60000 <= 303800 - 9000) /\
  Timers.advance 309000 w1 = (w1, []) /\
  room_status (Timers.advance 313800 w1).1 room1 = Some completed /\
  room_ended_at (Timers.advance 313800 w1).1 room1 = Some (Some 313800).
Proof.
assert (Hroom : rooms arena !! room1 = Some (room_in arena)) by (vm_compute; reflexivity).
assert (Hpart : isParticipant (room_in arena) (userId alice) = true) by (vm_compute; reflexivity).
assert (Hst : status (room_in arena) = in_progress) by (vm_compute; reflexivity).
assert (Ht0 : startedAt (battle (room_in arena)) = Some 9000) by (vm_compute; reflexivity).
assert (Hpid : is_Some (problem (room_in arena))) by (vm_compute; by eexists).
assert (Hus : Forall (fun p => is_Some (users arena !! p_user p))
                     (participants (room_in arena)))
  by (vm_compute; repeat constructor; by eexists).
assert (Htm : timers arena = []) by (vm_compute; reflexivity).
assert (Hrem : 0 <= remaining (room_in arena) 9000 303000)
  by (vm_compute; discriminate).
assert (Hne : five_tests 5 <> []) by (vm_compute; discriminate).
assert (Hok : forallb passed (five_tests 5) = true) by (vm_compute; reflexivity).
assert (Hlate : 60000 <= 303800 - 9000) by lia.
pose proof (grace_timer_alone_ends_battle alice room1 "return a + b"
              "javascript" 303000 303800 309000 (five_tests 5)
              arena (room_in arena) 9000
              Hroom Hpart Hst Ht0 Hpid Hus Htm Hrem Hne Hok Hlate)
  as (_ & _ & Hidle & _).
pose proof (grace_timer_alone_ends_battle alice room1 "return a + b"
              "javascript" 303000 303800 313800 (five_tests 5)
              arena (room_in arena) 9000
              Hroom Hpart Hst Ht0 Hpid Hus Htm Hrem Hne Hok Hlate)
  as (_ & _ & _ & Hfire).
split; [by split_and!|].
split; [apply Hidle; lia|].
destruct Hfire as (Hdone & Hat & _); [lia|]. by split.
Defined.

Lemma submit_over_limit_rejected_witness :
  (rooms arena !! room1 = Some (room_in arena) /\
   isParticipant (room_in arena) 1 = true /\
   status (room_in arena) = in_progress /\
   startedAt (battle (room_in arena)) = Some 9000 /\
   remaining (room_in arena) 9000 309001 < 0) /\
  battle_submit alice room1 "return a + b" "javascript" 309001
    (Some (five_tests 5)) 309800 arena = (arena, [ev_error "Battle time is up"]).
Proof.
assert (Hroom : rooms arena !! room1 = Some (room_in arena)) by (vm_compute; reflexivity).
assert (Hpart : isParticipant (room_in arena) (userId alice) = true) by (vm_compute; reflexivity).
assert (Hst : status (room_in arena) = in_progress) by (vm_compute; reflexivity).
assert (Ht0 : startedAt (battle (room_in arena)) = Some 9000) by (vm_compute; reflexivity).
assert (Hrem : remaining (room_in arena) 9000 309001 < 0) by (vm_compute; reflexivity).
split; [by split_and!|].
apply (submit_over_limit_rejected alice room1 "return a + b" "javascript"
         309001 309800 (Some (five_tests 5)) arena (room_in arena) 9000
         Hroom Hpart Hst Ht0).
exact Hrem.
Defined.

End OnReachable.
